(** * Nvidia Signing Script: a shallow embedding of [nvidia-signing-script.py]

    The script is a linear orchestration of external commands.  Its Python
    functions are embedded one by one, under their own names:

    - text is [string]; a character is a code point below 256, which is the
      range where the classes used by the script ([\d], [[a-z]], [[A-Z]],
      [str.isdigit], [str.isalpha], [str.rstrip]) are tabulated exactly;
    - [re.search] is a backtracking matcher with greedy repetition;
    - the functions that start processes, print or leave the interpreter run
      in a state-and-outcome monad [M]: the state records the processes
      started and the lines printed, the outcome is a returned value, a
      [sys.exit] or an uncaught exception;
    - the host (what a started process answers) and [pkg_resources] (how two
      version strings are ordered) are interfaces, given as type classes. *)

From Stdlib Require Import String Ascii List ZArith NArith Bool Lia.
From Stdlib Require Import DecimalString.
Import ListNotations.
Open Scope string_scope.

(* ================================================================== *)
(** * Text *)
(* ================================================================== *)

Module Str.

Definition code (c : ascii) : N := N_of_ascii c.

Definition in_range (lo hi : N) (c : ascii) : bool :=
  ((lo <=? code c) && (code c <=? hi))%N.

Definition is_code (n : N) (c : ascii) : bool := (code c =? n)%N.

(** [c.isdigit ()] for a single character. *)
Definition chr_isdigit (c : ascii) : bool :=
  in_range 48 57 c || is_code 178 c || is_code 179 c || is_code 185 c.

(** [c.isalpha ()] for a single character. *)
Definition chr_isalpha (c : ascii) : bool :=
  in_range 65 90 c || in_range 97 122 c
  || is_code 170 c || is_code 181 c || is_code 186 c
  || in_range 192 214 c || in_range 216 246 c || in_range 248 255 c.

(** [c.isspace ()] for a single character: what [rstrip ()] removes. *)
Definition chr_isspace (c : ascii) : bool :=
  in_range 9 13 c || in_range 28 32 c || is_code 133 c || is_code 160 c.

Fixpoint all (p : ascii -> bool) (s : string) : bool :=
  match s with
  | EmptyString => true
  | String c s' => p c && all p s'
  end.

Definition nonempty (s : string) : bool :=
  match s with EmptyString => false | String _ _ => true end.

(** [s.isdigit ()] and [s.isalpha ()]: false on the empty string. *)
Definition isdigit (s : string) : bool := nonempty s && all chr_isdigit s.
Definition isalpha (s : string) : bool := nonempty s && all chr_isalpha s.

(** [s [-1:]] *)
Fixpoint last1 (s : string) : string :=
  match s with
  | EmptyString => EmptyString
  | String c EmptyString => String c EmptyString
  | String _ s' => last1 s'
  end.

(** [s [:-1]] *)
Fixpoint but_last (s : string) : string :=
  match s with
  | EmptyString => EmptyString
  | String _ EmptyString => EmptyString
  | String c s' => String c (but_last s')
  end.

(** [s.rstrip ()] *)
Fixpoint rstrip (s : string) : string :=
  match s with
  | EmptyString => EmptyString
  | String c s' =>
      match rstrip s' with
      | EmptyString => if chr_isspace c then EmptyString else String c EmptyString
      | t => String c t
      end
  end.

Definition newline : ascii := "010"%char.

(** Splitting at every character of the class [sep]; the result is never
    empty. *)
Fixpoint split_on (sep : ascii -> bool) (s : string) : list string :=
  match s with
  | EmptyString => [EmptyString]
  | String c s' =>
      if sep c then EmptyString :: split_on sep s'
      else match split_on sep s' with
           | [] => [String c EmptyString]
           | l :: ls => String c l :: ls
           end
  end.

(** [s.split ('\n')]; [''.split ('\n')] is [['']]. *)
Definition split_lines (s : string) : list string :=
  split_on (Ascii.eqb newline) s.

(** [str (n)] of an integer, as ['%s' % n] prints it. *)
Definition of_Z (n : Z) : string := NilZero.string_of_int (Z.to_int n).

(** The longest prefix of [s] in the class [p], and what follows it. *)
Fixpoint take_while (p : ascii -> bool) (s : string) : string :=
  match s with
  | EmptyString => EmptyString
  | String c s' => if p c then String c (take_while p s') else EmptyString
  end.

Fixpoint drop_while (p : ascii -> bool) (s : string) : string :=
  match s with
  | EmptyString => EmptyString
  | String c s' => if p c then drop_while p s' else s
  end.

Definition starts_with (p : ascii -> bool) (s : string) : bool :=
  match s with EmptyString => false | String c _ => p c end.

End Str.

(* ================================================================== *)
(** * Regular expressions: [re.search] *)
(* ================================================================== *)

Module Re.

(** The fragment of Python's pattern language the script uses. *)
Inductive regex : Type :=
| Chr (p : ascii -> bool)          (* a character class *)
| Cat (r1 r2 : regex)              (* r1 r2 *)
| Alt (r1 r2 : regex)              (* r1 | r2, left branch first *)
| Plus (r : regex).                (* r +, greedy *)

(** A matcher takes the text that is left and a continuation for the rest
    of the pattern; it answers with the text left after the whole match. *)
Definition matcher : Type := string -> (string -> option string) -> option string.

Definition or_else (a : option string) (b : option string) : option string :=
  match a with Some x => Some x | None => b end.

(** Greedy repetition: after one iteration try another one first, and only
    when that fails go on with the rest of the pattern.  An iteration that
    consumed nothing is not repeated. *)
Fixpoint repeat_greedy (m : matcher) (k : string -> option string)
         (fuel : nat) (s : string) : option string :=
  match fuel with
  | O => None
  | S fuel' =>
      m s (fun s1 =>
             if (String.length s1 <? String.length s)%nat
             then or_else (repeat_greedy m k fuel' s1) (k s1)
             else k s1)
  end.

Fixpoint rmatch (r : regex) : matcher :=
  fun s k =>
    match r with
    | Chr p =>
        match s with
        | EmptyString => None
        | String c s' => if p c then k s' else None
        end
    | Cat r1 r2 => rmatch r1 s (fun s1 => rmatch r2 s1 k)
    | Alt r1 r2 => or_else (rmatch r1 s k) (rmatch r2 s k)
    | Plus r1 => repeat_greedy (rmatch r1) k (S (String.length s)) s
    end.

(** [re.search (r, s)]: the match at the leftmost position that has one;
    the answer is [match.group (0)]. *)
Fixpoint search (r : regex) (s : string) : option string :=
  match rmatch r s Some with
  | Some rest => Some (substring 0 (String.length s - String.length rest) s)
  | None =>
      match s with
      | EmptyString => None
      | String _ s' => search r s'
      end
  end.

(** [\d], [[a-z]], [[A-Z]] and a literal character. *)
Definition digit : ascii -> bool := Str.in_range 48 57.
Definition lower : ascii -> bool := Str.in_range 97 122.
Definition upper : ascii -> bool := Str.in_range 65 90.
Definition lit (a : ascii) : ascii -> bool := Ascii.eqb a.

End Re.

(* ================================================================== *)
(** * The interpreter: outcomes, state, host *)
(* ================================================================== *)

(** The exceptions that can leave the functions of the script. *)
Inductive exn : Type :=
| OSError                 (* the program could not be found or started *)
| CalledProcessError      (* [check_output]: the process exited non-zero *)
| UnicodeDecodeError      (* the captured bytes are not UTF-8 *)
| IndexError
| UnboundLocalError.

(** How a call ends: with a value, with [sys.exit (code)], or with an
    exception that nothing in the script catches. *)
Inductive outcome (A : Type) : Type :=
| Return (a : A)
| SysExit (code : Z)
| Raise (e : exn).
Arguments Return {A} a.
Arguments SysExit {A} code.
Arguments Raise {A} e.

(** A command line: the program name followed by its arguments. *)
Definition argv : Type := list string.

(** What the script leaves behind: the processes it started and the lines it
    printed, both in order. *)
Record state : Type := mkState {
  spawned : list argv;
  printed : list string
}.

Definition init_state : state := mkState [] [].

(** What starting a process gives: it cannot be started, or it runs until it
    exits with a status and a captured standard output, which is [None] when
    the bytes do not decode as UTF-8. *)
Inductive proc_result : Type :=
| StartFailed
| Exited (status : Z) (stdout : option string).

(** The host answers every command line; the answer may depend on what has
    been started before. *)
Class Host : Type := {
  run_process : list argv -> argv -> proc_result
}.

Definition M (A : Type) : Type := state -> outcome A * state.

Definition ret {A} (a : A) : M A := fun st => (Return a, st).

Definition bind {A B} (m : M A) (f : A -> M B) : M B :=
  fun st =>
    match m st with
    | (Return a, st') => f a st'
    | (SysExit c, st') => (SysExit c, st')
    | (Raise e, st') => (Raise e, st')
    end.

Definition raise {A} (e : exn) : M A := fun st => (Raise e, st).

(** [sys.exit (code)] *)
Definition sys_exit {A} (code : Z) : M A := fun st => (SysExit code, st).

(** [print (line)] *)
Definition print (line : string) : M unit :=
  fun st => (Return tt, mkState (spawned st) (printed st ++ [line])).

Declare Scope monad_scope.
Delimit Scope monad_scope with monad.
Notation "x <- m ;; k" := (bind m (fun x => k))
  (at level 61, m at next level, right associativity) : monad_scope.
Notation "m ;; k" := (bind m (fun _ => k))
  (at level 61, right associativity) : monad_scope.
Open Scope monad_scope.

(** The exit status the operating system sees. *)
Definition exit_status {A} (o : outcome A) : Z :=
  match o with
  | Return _ => 0
  | SysExit c => c
  | Raise _ => 1
  end.

(** [xs [i]] with Python's negative indices. *)
Definition py_getitem {A} (xs : list A) (i : Z) : option A :=
  if (0 <=? i)%Z then nth_error xs (Z.to_nat i)
  else if (- Z.of_nat (List.length xs) <=? i)%Z
       then nth_error xs (Z.to_nat (Z.of_nat (List.length xs) + i))
       else None.

(* ================================================================== *)
(** * The script *)
(* ================================================================== *)

Definition __title__ : string := "Nvidia Signing Script".
Definition __host__ : string := "https://github.com/Favorablestream".
Definition __copyright__ : string := "Copyright 2016 Kieran Gillibrand".
Definition __license__ : string := "MIT License (LICENSE.txt)".
Definition __version__ : string := "0.7".
Definition __date__ : string := "4/09/2016".

Definition exitCodes : list string :=
  [ "Success, normal exit"; "Package manager not found";
    "Unable to sign a kernel module"; "Unable to extract kernel version string" ].

(** The three lines [handleError] prints. *)
Definition error_lines (errorMessage : string) (exitCode : Z) (description : string)
  : list string :=
  [ __title__ ++ " Error: " ++ errorMessage;
    "";
    "Exiting with exit code: " ++ Str.of_Z exitCode ++ ", " ++ description ].

Definition handleError {A} (errorMessage : string) (exitCode : Z) : M A :=
  print (__title__ ++ " Error: " ++ errorMessage) ;;
  print "" ;;
  match py_getitem exitCodes exitCode with
  | None => raise IndexError
  | Some description =>
      print ("Exiting with exit code: " ++ Str.of_Z exitCode ++ ", " ++ description) ;;
      sys_exit exitCode
  end.

(** The pattern ['\d+(\d+|\.|\-|[a-z]|[A-Z])+']. *)
Definition version_group : Re.regex :=
  Re.Alt (Re.Plus (Re.Chr Re.digit))
    (Re.Alt (Re.Chr (Re.lit "."))
       (Re.Alt (Re.Chr (Re.lit "-"))
          (Re.Alt (Re.Chr Re.lower) (Re.Chr Re.upper)))).

Definition version_re : Re.regex :=
  Re.Cat (Re.Plus (Re.Chr Re.digit)) (Re.Plus version_group).

Definition extractKernelVersionString (line : string) : M string :=
  match Re.search version_re line with
  | None =>
      handleError ("Unable to extract version string for kernel line: " ++ line) 3
  | Some versionString =>
      let versionString :=
        if negb (Str.isdigit (Str.last1 versionString)
                 || Str.isalpha (Str.last1 versionString))
        then Str.but_last versionString
        else versionString in
      ret versionString
  end.

Section Host.

Context {host : Host}.

(** Starting a process records its command line. *)
Definition spawn (cmd : argv) : M proc_result :=
  fun st =>
    (Return (run_process (spawned st) cmd),
     mkState (spawned st ++ [cmd]) (printed st)).

(** [subprocess.check_output] raises [CalledProcessError] when the process
    exits with a status other than 0; [OSError] is caught and raised again;
    [decode] raises on bytes that are not UTF-8. *)
Definition executeCommandWithOutput (commandName : string) (commandArgs : list string)
  : M string :=
  r <- spawn (commandName :: commandArgs) ;;
  match r with
  | StartFailed => raise OSError
  | Exited status stdout =>
      if (status =? 0)%Z
      then match stdout with
           | Some text => ret text
           | None => raise UnicodeDecodeError
           end
      else raise CalledProcessError
  end.

(** [subprocess.call] gives the exit status whatever it is; [OSError]
    becomes the status 127. *)
Definition executeCommandWithExitStatus (commandName : string)
           (commandArgs : list string) : M Z :=
  r <- spawn (commandName :: commandArgs) ;;
  match r with
  | StartFailed => ret 127%Z
  | Exited status _ => ret status
  end.

End Host.

(** [pkg_resources]: [parse_version] and the comparisons that Python's [<]
    and [>] make on what it returns.  The library is not part of the script;
    the script only relies on this interface. *)
Class PkgResources : Type := {
  version : Type;
  parse_version : string -> version;
  version_lt : version -> version -> bool;
  version_gt : version -> version -> bool
}.

(** What the library promises of its versions: [>] is [<] read backwards,
    and [<] is a strict total order. *)
Class PkgResourcesOrder (pkg : PkgResources) : Prop := {
  gt_converse : forall a b : version, version_gt a b = version_lt b a;
  lt_irrefl : forall a : version, version_lt a a = false;
  lt_trans : forall a b c : version,
      version_lt a b = true -> version_lt b c = true -> version_lt a c = true;
  lt_connected : forall a b : version,
      version_lt a b = false -> version_lt b a = false -> a = b
}.

(** [for x in xs: body (x)] *)
Fixpoint for_each {A} (xs : list A) (body : A -> M unit) : M unit :=
  match xs with
  | [] => ret tt
  | x :: xs' => body x ;; for_each xs' body
  end.

(** [for x in xs: acc = body (acc, x)], for a loop that grows a list. *)
Fixpoint for_fold {A B} (xs : list A) (acc : B) (body : B -> A -> M B) : M B :=
  match xs with
  | [] => ret acc
  | x :: xs' => acc' <- body acc x ;; for_fold xs' acc' body
  end.

Section Script.

Context {host : Host} {pkg : PkgResources}.

Definition compareKernels (kernel1 kernel2 : string) : Z :=
  let kernel1Version := parse_version kernel1 in
  let kernel2Version := parse_version kernel2 in
  if version_gt kernel1Version kernel2Version then 1
  else if version_lt kernel1Version kernel2Version then -1
  else 0.

Definition SIGN_BINARY_PATH (kernel : string) : string :=
  "/usr/src/kernels/" ++ kernel ++ "/scripts/sign-file".

Definition MODULES_PATH (kernel : string) : string :=
  "/usr/lib/modules/" ++ kernel ++ "/extra/nvidia/".

Definition MODULE_NAMES : list string :=
  [ "nvidia-drm.ko"; "nvidia.ko"; "nvidia-modeset.ko"; "nvidia-uvm.ko" ].

Definition signKernel (kernel privateKeyPath publicKeyPath : string) : M unit :=
  for_each MODULE_NAMES (fun module =>
    status <- executeCommandWithExitStatus (SIGN_BINARY_PATH kernel)
                [ "sha256"; privateKeyPath; publicKeyPath; MODULES_PATH kernel ++ module ] ;;
    if negb (status =? 0)%Z
    then handleError ("Error signing kernel module: " ++ module) 2
    else ret tt).

Definition getPackageManager : M string :=
  rpm <- executeCommandWithExitStatus "rpm" [ "--version" ] ;;
  if (rpm =? 0)%Z then ret "rpm"
  else
    dpkg <- executeCommandWithExitStatus "dpkg" [ "--version" ] ;;
    if (dpkg =? 0)%Z then ret "dpkg"
    else
      pacman <- executeCommandWithExitStatus "pacman" [ "--version" ] ;;
      if (pacman =? 0)%Z then ret "pacman"
      else handleError "Package manager could not be determined" 1.

(** [unameOutput.rstrip ()] is evaluated and its value dropped: a Python
    string is immutable, so the text handed on is the output as captured. *)
Definition getCurrentKernel : M string :=
  unameOutput <- executeCommandWithOutput "uname" [ "-r" ] ;;
  let _ := Str.rstrip unameOutput in
  extractKernelVersionString unameOutput.

(** With a package manager other than the three, [output] is never bound
    and [output.rstrip ()] raises. *)
Definition getInstalledKernels (packageManager : string) : M (list string) :=
  output <-
    (if packageManager =? "rpm"
     then executeCommandWithOutput "rpm" [ "-qa"; "kernel" ]
     else if packageManager =? "dpkg"
     then executeCommandWithOutput "dpkg" [ "--list"; "|"; "grep"; "linux-image" ]
     else if packageManager =? "pacman"
     then executeCommandWithOutput "pacman" [ "-Q"; "|"; "grep"; "linux" ]
     else raise UnboundLocalError) ;;
  let output := Str.rstrip output in
  let outputLines := Str.split_lines output in
  for_fold outputLines [] (fun kernelVersions line =>
    versionString <- extractKernelVersionString line ;;
    ret (kernelVersions ++ [versionString])%list).

Definition getNewKernels (currentKernel : string) (installedKernels : list string)
  : list string :=
  fold_left
    (fun newKernels installedKernel =>
       if (compareKernels installedKernel currentKernel =? 1)%Z
       then (newKernels ++ [installedKernel])%list
       else newKernels)
    installedKernels [].

Definition signNewKernels (newKernels : list string)
           (privateKeyPath publicKeyPath : string) : M unit :=
  for_each newKernels (fun newKernel =>
    signKernel newKernel privateKeyPath publicKeyPath).

(** ['%s' % xs] for a list of strings: [repr] of the list.  The quoting is
    the one Python uses for strings without quotes, backslashes or control
    characters, which is all an extracted version can hold. *)
Definition repr_list (xs : list string) : string :=
  "[" ++ String.concat ", " (map (fun x => "'" ++ x ++ "'") xs) ++ "]".

(** [main] after [argparse] has read the two positional arguments. *)
Definition main (privateKeyFile publicKeyFile : string) : M unit :=
  print "" ;;
  print (__title__ ++ " - " ++ __copyright__ ++ ", " ++ __license__) ;;
  print ("Version: " ++ __version__ ++ ", " ++ __date__) ;;
  print __host__ ;;
  print "" ;;
  packageManager <- getPackageManager ;;
  print ("DEBUG: Package Manager: " ++ packageManager) ;;
  currentKernel <- getCurrentKernel ;;
  print ("DEBUG: Current kernel: " ++ currentKernel) ;;
  installedKernels <- getInstalledKernels packageManager ;;
  print ("DEBUG: Installed kernels: " ++ repr_list installedKernels) ;;
  let newKernels := getNewKernels currentKernel installedKernels in
  print ("DEBUG: New kernels: " ++ repr_list newKernels) ;;
  signNewKernels newKernels privateKeyFile publicKeyFile ;;
  print "DEBUG: New kernels should now be signed".

End Script.

(* ================================================================== *)
(** * A model of [pkg_resources] *)
(* ================================================================== *)

(** Modelled from the spec: [pkg_resources.parse_version] and the order of
    the versions it returns, which the script imports and which is not part
    of its source.  A version string is split at every [.] and [-]; two
    versions are compared segment by segment, numerically when both segments
    are numeric and lexically otherwise; a version that is a proper prefix
    of another is the smaller one. *)
Module Release.

Definition separator (c : ascii) : bool := Re.lit "." c || Re.lit "-" c.

(** A segment is numeric when it is a non-empty run of digits. *)
Definition numeric (s : string) : bool := Str.nonempty s && Str.all Re.digit s.

Fixpoint decimal (acc : N) (s : string) : N :=
  match s with
  | EmptyString => acc
  | String c s' => decimal (10 * acc + (Str.code c - 48)) s'
  end.

(** The number a numeric segment stands for. *)
Definition value (s : string) : N := decimal 0 s.

(** Modelled from the spec: [pkg_resources.parse_version], the segments of
    a version string between its [.] and [-]. *)
Definition parse (s : string) : list string := Str.split_on separator s.

(** Lexicographic comparison; the shorter of two lists that agree is the
    smaller. *)
Fixpoint lex {A} (cmp : A -> A -> comparison) (xs ys : list A) : comparison :=
  match xs, ys with
  | [], [] => Eq
  | [], _ :: _ => Lt
  | _ :: _, [] => Gt
  | x :: xs', y :: ys' =>
      match cmp x y with
      | Eq => lex cmp xs' ys'
      | c => c
      end
  end.

Definition codes (s : string) : list N := map Str.code (list_ascii_of_string s).

(** Modelled from the spec: two segments are compared numerically when both
    are numeric, lexically (character by character) otherwise. *)
Definition segment_compare (s t : string) : comparison :=
  if numeric s && numeric t
  then N.compare (value s) (value t)
  else lex N.compare (codes s) (codes t).

(** Modelled from the spec: the order of the versions of [pkg_resources],
    segment by segment, a proper prefix being the smaller. *)
Definition compare (a b : list string) : comparison := lex segment_compare a b.

Definition ltb (a b : list string) : bool :=
  match compare a b with Lt => true | _ => false end.

Definition gtb (a b : list string) : bool :=
  match compare a b with Gt => true | _ => false end.

(** Modelled from the spec: [pkg_resources] as the script uses it. *)
Definition pkg : PkgResources :=
  {| version := list string;
     parse_version := parse;
     version_lt := ltb;
     version_gt := gtb |}.


End Release.

(** An implementation of [PkgResources] that keeps the laws of
    [PkgResourcesOrder], to run the statements about ordered libraries on.
    It is not the order of the specification: it reads the segments as
    [Release] does and compares two numeric segments, or two segments that
    are not numeric, as [Release] does, but it puts a numeric segment below
    every segment that is not numeric, whatever their characters. *)
Module Ranked.

Inductive segment : Type :=
| Num (n : N)
| Txt (s : string).

Definition segment_of (s : string) : segment :=
  if Release.numeric s then Num (Release.value s) else Txt s.

Definition parse (s : string) : list segment :=
  map segment_of (Str.split_on Release.separator s).

Definition segment_compare (a b : segment) : comparison :=
  match a, b with
  | Num m, Num n => N.compare m n
  | Num _, Txt _ => Lt
  | Txt _, Num _ => Gt
  | Txt s, Txt t => Release.lex N.compare (Release.codes s) (Release.codes t)
  end.

Definition compare (a b : list segment) : comparison :=
  Release.lex segment_compare a b.

Definition ltb (a b : list segment) : bool :=
  match compare a b with Lt => true | _ => false end.

Definition gtb (a b : list segment) : bool :=
  match compare a b with Gt => true | _ => false end.

Definition pkg : PkgResources :=
  {| version := list segment;
     parse_version := parse;
     version_lt := ltb;
     version_gt := gtb |}.

End Ranked.

(* ================================================================== *)
(** * What the specification says of version extraction *)
(* ================================================================== *)

(** A character of [digit | . | - | letter]. *)
Definition version_char (c : ascii) : bool :=
  Re.digit c || Re.lit "." c || Re.lit "-" c || Re.lower c || Re.upper c.

(** [m] matches [digit (digit | . | - | letter)+]. *)
Definition version_like (m : string) : bool :=
  match m with
  | String d (String c rest) => Re.digit d && version_char c && Str.all version_char rest
  | _ => false
  end.

(** The line has a substring that matches the pattern. *)
Definition contains_version_like (line : string) : Prop :=
  exists pre m post, line = pre ++ m ++ post /\ version_like m = true.

(** [m], between [pre] and [post], is the first maximal matching substring of
    the line: it matches, it cannot be extended to the right, and no match
    starts further left. *)
Definition first_maximal (line pre m post : string) : Prop :=
  line = pre ++ m ++ post
  /\ version_like m = true
  /\ Str.starts_with version_char post = false
  /\ forall pre' m' post',
       line = pre' ++ m' ++ post' -> version_like m' = true ->
       (String.length pre <= String.length pre')%nat.

Fixpoint last_char (s : string) : option ascii :=
  match s with
  | EmptyString => None
  | String c EmptyString => Some c
  | String _ s' => last_char s'
  end.

(** The final character is dropped when it is neither a digit nor a letter. *)
Definition drop_final_separator (m : string) : string :=
  match last_char m with
  | Some c => if Re.digit c || Re.lower c || Re.upper c then m else Str.but_last m
  | None => m
  end.

(** A match starts at the head of [s]: a digit, then a character of the
    class. *)
Definition match_starts (s : string) : bool :=
  match s with
  | String d rest => Re.digit d && Str.starts_with version_char rest
  | EmptyString => false
  end.

(** Left-to-right scan for the first position where a match starts; the
    answer is the text before it, the maximal match and the text after. *)
Fixpoint scan (s : string) : option (string * string * string) :=
  if match_starts s
  then Some (EmptyString, Str.take_while version_char s, Str.drop_while version_char s)
  else match s with
       | EmptyString => None
       | String c s' =>
           match scan s' with
           | Some (pre, m, post) => Some (String c pre, m, post)
           | None => None
           end
       end.

(* ================================================================== *)
(** * Vocabulary for the statements about processes *)
(* ================================================================== *)

(** The status [executeCommandWithExitStatus] reports for an answer of the
    host: 127 stands for a program that could not be started. *)
Definition status_of (r : proc_result) : Z :=
  match r with
  | StartFailed => 127
  | Exited status _ => status
  end.

(** The state after more processes were started, or more lines printed. *)
Definition started (st : state) (cmds : list argv) : state :=
  mkState (spawned st ++ cmds) (printed st).

Definition logged (st : state) (lines : list string) : state :=
  mkState (spawned st) (printed st ++ lines).

(** The command lines of the script. *)
Definition probe (packageManager : string) : argv := [ packageManager; "--version" ].

Definition uname_command : argv := [ "uname"; "-r" ].

Definition listing_command (packageManager : string) : option argv :=
  if packageManager =? "rpm" then Some [ "rpm"; "-qa"; "kernel" ]
  else if packageManager =? "dpkg"
  then Some [ "dpkg"; "--list"; "|"; "grep"; "linux-image" ]
  else if packageManager =? "pacman"
  then Some [ "pacman"; "-Q"; "|"; "grep"; "linux" ]
  else None.

Definition sign_command (kernel privateKeyPath publicKeyPath module : string) : argv :=
  [ SIGN_BINARY_PATH kernel; "sha256"; privateKeyPath; publicKeyPath;
    MODULES_PATH kernel ++ module ].

(** The lines [main] prints before it looks for the package manager. *)
Definition banner : list string :=
  [ "";
    __title__ ++ " - " ++ __copyright__ ++ ", " ++ __license__;
    "Version: " ++ __version__ ++ ", " ++ __date__;
    __host__;
    "" ].

(* ================================================================== *)
(** * Hosts to run the script on *)
(* ================================================================== *)

Fixpoint argv_eqb (a b : argv) : bool :=
  match a, b with
  | [], [] => true
  | x :: a', y :: b' => (x =? y) && argv_eqb a' b'
  | _, _ => false
  end.

(** A Fedora machine: [rpm] is there, the running kernel is the newest one
    installed, and the signing binary of every kernel signs. *)
Definition fedora : Host :=
  {| run_process := fun _ cmd =>
       if argv_eqb cmd (probe "rpm") then Exited 0 (Some "RPM version 4.13.0.1")
       else if argv_eqb cmd uname_command
       then Exited 0 (Some (String.concat (String Str.newline "")
                              [ "4.7.2-201.fc24.x86_64"; "" ]))
       else if argv_eqb cmd [ "rpm"; "-qa"; "kernel" ]
       then Exited 0 (Some (String.concat (String Str.newline "")
                              [ "kernel-4.5.5-300.fc24.x86_64";
                                "kernel-4.7.2-201.fc24.x86_64"; "" ]))
       else match cmd with
            | [ _; "sha256"; _; _; _ ] => Exited 0 (Some "")
            | _ => StartFailed
            end |}.

(** A Debian machine: no [rpm], [dpkg] is there, and the signing binary
    fails on [nvidia.ko]. *)
Definition debian : Host :=
  {| run_process := fun _ cmd =>
       if argv_eqb cmd (probe "dpkg") then Exited 0 (Some "Debian dpkg 1.18.10")
       else match cmd with
            | [ _; "sha256"; _; _; path ] =>
                if path =? MODULES_PATH "4.8.0-1" ++ "nvidia.ko"
                then Exited 1 (Some "")
                else Exited 0 (Some "")
            | _ => StartFailed
            end |}.

(** A machine without any of the three package managers, where [uname]
    starts and exits with status 1 after writing a line. *)
Definition bare : Host :=
  {| run_process := fun _ cmd =>
       if argv_eqb cmd uname_command then Exited 1 (Some "4.7.2-201")
       else StartFailed |}.

(** One turn of the loop of [signKernel]. *)
Definition sign_module {host : Host} (kernel privateKeyPath publicKeyPath module : string)
  : M unit :=
  status <- executeCommandWithExitStatus (SIGN_BINARY_PATH kernel)
              [ "sha256"; privateKeyPath; publicKeyPath; MODULES_PATH kernel ++ module ] ;;
  if negb (status =? 0)%Z
  then handleError ("Error signing kernel module: " ++ module) 2
  else ret tt.

(** One turn of the loop of [getInstalledKernels]. *)
Definition collect_version (kernelVersions : list string) (line : string)
  : M (list string) :=
  versionString <- extractKernelVersionString line ;;
  ret (kernelVersions ++ [versionString])%list.

(** [extractKernelVersionString] returns [token] for [line], whatever has
    happened before. *)
Definition extracts (line token : string) : Prop :=
  forall st, extractKernelVersionString line st = (Return token, st).

(** The message of a failed extraction. *)
Definition extraction_message (line : string) : string :=
  "Unable to extract version string for kernel line: " ++ line.

(** Greedy repetition of a single character class, written by recursion on
    the text: take the character, prefer going on, fall back to the
    continuation. *)
Fixpoint plus_chr (p : ascii -> bool) (k : string -> option string) (s : string)
  : option string :=
  match s with
  | EmptyString => None
  | String c s' => if p c then Re.or_else (plus_chr p k s') (k s') else None
  end.

(* ================================================================== *)
(** * Vocabulary for the statements about whole runs *)
(* ================================================================== *)

(** The signing commands of a list of kernels: the four of the first kernel,
    then the four of the second, and so on. *)
Definition sign_commands (privateKeyPath publicKeyPath : string) (kernels : list string)
  : list argv :=
  flat_map (fun kernel => map (sign_command kernel privateKeyPath publicKeyPath)
                              MODULE_NAMES)
           kernels.

(** The three probes of [getPackageManager], in the order it makes them. *)
Definition probes : list argv := [ probe "rpm"; probe "dpkg"; probe "pacman" ].

(** The exceptions a process that does not start, exits with an error or
    writes bytes that are not text can cause. *)
Definition process_error (e : exn) : Prop :=
  e = OSError \/ e = CalledProcessError \/ e = UnicodeDecodeError.

(** A machine with [rpm] that runs kernel 5.10.0 and has 5.12.1 installed
    beside it; every signing binary signs. *)
Definition workstation : Host :=
  {| run_process := fun _ cmd =>
       if argv_eqb cmd (probe "rpm") then Exited 0 (Some "RPM version 4.16.1.3")
       else if argv_eqb cmd uname_command
       then Exited 0 (Some (String.concat (String Str.newline "") [ "5.10.0"; "" ]))
       else if argv_eqb cmd [ "rpm"; "-qa"; "kernel" ]
       then Exited 0 (Some (String.concat (String Str.newline "")
                              [ "kernel-5.10.0"; "kernel-5.12.1"; "" ]))
       else match cmd with
            | [ _; "sha256"; _; _; _ ] => Exited 0 (Some "")
            | _ => StartFailed
            end |}.

(** A machine with [pacman] only, whose package list is empty and whose
    [uname] writes a line without a version. *)
Definition empty_arch : Host :=
  {| run_process := fun _ cmd =>
       if argv_eqb cmd (probe "pacman") then Exited 0 (Some "Pacman v5.0.1")
       else if argv_eqb cmd uname_command
       then Exited 0 (Some (String.concat (String Str.newline "") [ "unknown"; "" ]))
       else if argv_eqb cmd [ "pacman"; "-Q"; "|"; "grep"; "linux" ]
       then Exited 0 (Some (String Str.newline ""))
       else StartFailed |}.

(* ================================================================== *)
(** * Facts about text *)
(* ================================================================== *)

Section TextFacts.

Lemma append_nil_r (s : string) : s ++ "" = s.
Proof. induction s as [|c s IH]; simpl; [reflexivity | now rewrite IH]. Qed.

Lemma append_assoc (a b c : string) : (a ++ b) ++ c = a ++ (b ++ c).
Proof. induction a as [|x a IH]; simpl; [reflexivity | now rewrite IH]. Qed.

Lemma length_append (a b : string) :
  String.length (a ++ b) = (String.length a + String.length b)%nat.
Proof. induction a as [|x a IH]; simpl; [reflexivity | now rewrite IH]. Qed.

Lemma substring_prefix (a b : string) : substring 0 (String.length a) (a ++ b) = a.
Proof.
  induction a as [|x a IH]; simpl.
  - destruct b; reflexivity.
  - now rewrite IH.
Qed.

Variable p : ascii -> bool.

Lemma take_drop_while (s : string) : Str.take_while p s ++ Str.drop_while p s = s.
Proof.
  induction s as [|c s IH]; simpl; [reflexivity|].
  destruct (p c); simpl; [now rewrite IH | reflexivity].
Qed.

Lemma length_drop_while (s : string) :
  (String.length (Str.drop_while p s) <= String.length s)%nat.
Proof.
  induction s as [|c s IH]; simpl; [lia|].
  destruct (p c); simpl; lia.
Qed.

Lemma starts_drop_while (s : string) :
  Str.starts_with p (Str.drop_while p s) = false.
Proof.
  induction s as [|c s IH]; simpl; [reflexivity|].
  destruct (p c) eqn:E; [exact IH | simpl; exact E].
Qed.

Lemma all_take_while (s : string) : Str.all p (Str.take_while p s) = true.
Proof.
  induction s as [|c s IH]; simpl; [reflexivity|].
  destruct (p c) eqn:E; simpl; [now rewrite E | reflexivity].
Qed.

Lemma drop_while_stuck (s : string) :
  Str.starts_with p s = false -> Str.drop_while p s = s.
Proof. destruct s as [|c s]; simpl; [reflexivity | now intros ->]. Qed.

Lemma take_while_append (m post : string) :
  Str.all p m = true -> Str.starts_with p post = false ->
  Str.take_while p (m ++ post) = m /\ Str.drop_while p (m ++ post) = post.
Proof.
  intros Hall Hpost. induction m as [|c m IH]; simpl in *.
  - destruct post as [|x post]; simpl in *; [now split|].
    rewrite Hpost. now split.
  - apply andb_true_iff in Hall as [Hc Hm]. rewrite Hc.
    destruct (IH Hm) as [-> ->]. now split.
Qed.

Lemma substring_take_while (s : string) :
  substring 0 (String.length s - String.length (Str.drop_while p s)) s
  = Str.take_while p s.
Proof.
  rewrite <- (take_drop_while s) at 1 3.
  rewrite length_append.
  replace (String.length (Str.take_while p s) + String.length (Str.drop_while p s)
           - String.length (Str.drop_while p s))%nat
    with (String.length (Str.take_while p s)) by lia.
  apply substring_prefix.
Qed.

(** Dropping a smaller class first changes nothing. *)
Lemma drop_while_absorb (q : ascii -> bool) (s : string) :
  (forall c, q c = true -> p c = true) ->
  Str.drop_while p (Str.drop_while q s) = Str.drop_while p s.
Proof.
  intros Hqp. induction s as [|c s IH]; simpl; [reflexivity|].
  destruct (q c) eqn:E.
  - rewrite (Hqp _ E). exact IH.
  - reflexivity.
Qed.

End TextFacts.

Lemma last1_last_char (s : string) :
  Str.last1 s = match last_char s with Some c => String c "" | None => "" end.
Proof.
  induction s as [|c s IH]; simpl; [reflexivity|].
  destruct s as [|d s]; [reflexivity | exact IH].
Qed.

Lemma last_char_some (c : ascii) (s : string) : last_char (String c s) <> None.
Proof.
  revert c. induction s as [|d s IH]; intros c; [discriminate|].
  exact (IH d).
Qed.

Lemma last_char_all (p : ascii -> bool) (s : string) (c : ascii) :
  Str.all p s = true -> last_char s = Some c -> p c = true.
Proof.
  induction s as [|x s IH]; simpl; [discriminate|].
  intros Hall Hlast. apply andb_true_iff in Hall as [Hx Hs].
  destruct s as [|d s]; [now injection Hlast as <- | now apply IH].
Qed.

Lemma digit_version_char (c : ascii) : Re.digit c = true -> version_char c = true.
Proof. unfold version_char. now intros ->. Qed.

(** On the characters a match is made of, Python's [isdigit] and [isalpha]
    say what the classes of the pattern say. *)
Lemma alnum_on_version_char (c : ascii) :
  version_char c = true ->
  Str.chr_isdigit c || Str.chr_isalpha c = Re.digit c || Re.lower c || Re.upper c.
Proof.
  destruct c as [[] [] [] [] [] [] [] []]; vm_compute; intros H;
    first [reflexivity | discriminate H].
Qed.

(* ================================================================== *)
(** * The pattern of the script, matched by the backtracking matcher *)
(* ================================================================== *)

Lemma repeat_chr (p : ascii -> bool) (k : string -> option string) (fuel : nat) :
  forall s, (String.length s < fuel)%nat ->
            Re.repeat_greedy (Re.rmatch (Re.Chr p)) k fuel s = plus_chr p k s.
Proof.
  induction fuel as [|fuel IH]; intros s Hlen; [lia|].
  destruct s as [|c s]; simpl; [reflexivity|].
  destruct (p c); [|reflexivity].
  replace (String.length s <? S (String.length s))%nat with true
    by (symmetry; apply Nat.ltb_lt; lia).
  rewrite IH by (simpl in Hlen; lia). reflexivity.
Qed.

Lemma rmatch_Cat (r1 r2 : Re.regex) (s : string) (k : string -> option string) :
  Re.rmatch (Re.Cat r1 r2) s k = Re.rmatch r1 s (fun s1 => Re.rmatch r2 s1 k).
Proof. reflexivity. Qed.

Lemma rmatch_Alt (r1 r2 : Re.regex) (s : string) (k : string -> option string) :
  Re.rmatch (Re.Alt r1 r2) s k = Re.or_else (Re.rmatch r1 s k) (Re.rmatch r2 s k).
Proof. reflexivity. Qed.

Lemma rmatch_Plus (r : Re.regex) (s : string) (k : string -> option string) :
  Re.rmatch (Re.Plus r) s k
  = Re.repeat_greedy (Re.rmatch r) k (S (String.length s)) s.
Proof. reflexivity. Qed.

Lemma rmatch_Chr (p : ascii -> bool) (c : ascii) (s : string)
      (k : string -> option string) :
  Re.rmatch (Re.Chr p) (String c s) k = if p c then k s else None.
Proof. reflexivity. Qed.

Lemma rmatch_plus_chr (p : ascii -> bool) (k : string -> option string) (s : string) :
  Re.rmatch (Re.Plus (Re.Chr p)) s k = plus_chr p k s.
Proof. rewrite rmatch_Plus. apply repeat_chr. lia. Qed.

Lemma plus_chr_ext (p : ascii -> bool) (k k' : string -> option string) :
  (forall x, k x = k' x) -> forall s, plus_chr p k s = plus_chr p k' s.
Proof.
  intros Hk s. induction s as [|c s IH]; simpl; [reflexivity|].
  now rewrite IH, Hk.
Qed.

(** When the rest of the pattern cannot fail, the greediest choice stands. *)
Lemma plus_chr_greedy (p : ascii -> bool) (k : string -> option string) :
  (forall x, k x <> None) ->
  forall s, Str.starts_with p s = true -> plus_chr p k s = k (Str.drop_while p s).
Proof.
  intros Hk s. induction s as [|c s IH]; simpl; [discriminate|].
  intros Hc. rewrite Hc.
  destruct (Str.starts_with p s) eqn:Hs.
  - rewrite (IH eq_refl). destruct (k (Str.drop_while p s)) eqn:E; [reflexivity|].
    now apply Hk in E.
  - rewrite (drop_while_stuck p s Hs).
    destruct s as [|d s]; simpl in *; [reflexivity|].
    now rewrite Hs.
Qed.

Lemma plus_chr_stuck (p : ascii -> bool) (k : string -> option string) (s : string) :
  Str.starts_with p s = false -> plus_chr p k s = None.
Proof. destruct s as [|c s]; simpl; [reflexivity | now intros ->]. Qed.

(** The repeated group [(\d+|\.|\-|[a-z]|[A-Z])+] at the end of the pattern
    takes the whole run of version characters, and needs one at least. *)
Lemma repeat_version_group (fuel : nat) :
  forall s, (String.length s < fuel)%nat ->
            Re.repeat_greedy (Re.rmatch version_group) Some fuel s
            = if Str.starts_with version_char s
              then Some (Str.drop_while version_char s)
              else None.
Proof.
  induction fuel as [|fuel IH]; intros s Hlen; [lia|].
  cbn [Re.repeat_greedy].
  set (k := fun s1 : string =>
              if (String.length s1 <? String.length s)%nat
              then Re.or_else (Re.repeat_greedy (Re.rmatch version_group) Some fuel s1)
                              (Some s1)
              else Some s1).
  assert (Hk_total : forall x, k x <> None).
  { intros x. unfold k. destruct (String.length x <? String.length s)%nat; [|discriminate].
    destruct (Re.repeat_greedy _ _ _ _); discriminate. }
  assert (Hk : forall x, (String.length x < String.length s)%nat ->
                         k x = Some (Str.drop_while version_char x)).
  { intros x Hx. unfold k.
    replace (String.length x <? String.length s)%nat with true
      by (symmetry; apply Nat.ltb_lt; exact Hx).
    rewrite IH by lia.
    destruct (Str.starts_with version_char x) eqn:E; simpl; [reflexivity|].
    now rewrite drop_while_stuck. }
  destruct s as [|c s]; [reflexivity|].
  unfold version_group. rewrite !rmatch_Alt, rmatch_plus_chr, !rmatch_Chr.
  cbn [Str.starts_with Str.drop_while].
  destruct (Re.digit c) eqn:Hd.
  - rewrite (plus_chr_greedy Re.digit k Hk_total) by exact Hd.
    rewrite Hk.
    + rewrite drop_while_absorb by exact digit_version_char.
      cbn [Str.drop_while]. rewrite (digit_version_char c Hd). reflexivity.
    + cbn [Str.drop_while]. rewrite Hd.
      pose proof (length_drop_while Re.digit s). simpl. lia.
  - rewrite plus_chr_stuck by exact Hd.
    rewrite (Hk s) by (simpl; lia).
    unfold version_char. rewrite Hd.
    destruct (Re.lit "." c); [reflexivity|].
    destruct (Re.lit "-" c); [reflexivity|].
    destruct (Re.lower c); [reflexivity|].
    destruct (Re.upper c); reflexivity.
Qed.

(** The leading [\d+] gives back digits until the group can start. *)
Lemma plus_digit_then_group (s : string) :
  plus_chr Re.digit
    (fun s1 => if Str.starts_with version_char s1
               then Some (Str.drop_while version_char s1) else None) s
  = if match_starts s then Some (Str.drop_while version_char s) else None.
Proof.
  induction s as [|c s IH]; [reflexivity|].
  cbn [plus_chr match_starts Str.drop_while].
  destruct (Re.digit c) eqn:Hd; [|reflexivity].
  rewrite (digit_version_char c Hd), IH. cbn [andb].
  destruct (match_starts s) eqn:Hs.
  - destruct s as [|d s]; [discriminate|].
    cbn [match_starts] in Hs. apply andb_true_iff in Hs as [Hdd _].
    cbn [Str.starts_with]. rewrite (digit_version_char d Hdd). reflexivity.
  - reflexivity.
Qed.

(** The whole pattern, tried at the head of the text. *)
Lemma rmatch_version_re (s : string) :
  Re.rmatch version_re s Some
  = if match_starts s then Some (Str.drop_while version_char s) else None.
Proof.
  unfold version_re. rewrite rmatch_Cat, rmatch_plus_chr.
  rewrite (plus_chr_ext Re.digit _
             (fun s1 => if Str.starts_with version_char s1
                        then Some (Str.drop_while version_char s1) else None)).
  - apply plus_digit_then_group.
  - intros x. apply repeat_version_group. lia.
Qed.

(** [re.search] with the pattern of the script is the left-to-right scan. *)
Lemma search_scan (s : string) :
  Re.search version_re s
  = match scan s with Some (_, m, _) => Some m | None => None end.
Proof.
  induction s as [|c s IH].
  - reflexivity.
  - cbn [Re.search scan]. rewrite rmatch_version_re.
    destruct (match_starts (String c s)) eqn:E.
    + now rewrite substring_take_while.
    + rewrite IH. destruct (scan s) as [[[pre m] post]|]; reflexivity.
Qed.

(* ================================================================== *)
(** * The scan finds the first maximal match *)
(* ================================================================== *)

Lemma version_like_all (m : string) :
  version_like m = true -> Str.all version_char m = true.
Proof.
  destruct m as [|d [|c rest]]; simpl; try discriminate.
  intros H. apply andb_true_iff in H as [H Hrest].
  apply andb_true_iff in H as [Hd Hc].
  now rewrite (digit_version_char d Hd), Hc, Hrest.
Qed.

Lemma version_like_starts (m post : string) :
  version_like m = true -> match_starts (m ++ post) = true.
Proof.
  destruct m as [|d [|c rest]]; simpl; try discriminate.
  intros H. apply andb_true_iff in H as [H _].
  apply andb_true_iff in H as [Hd Hc].
  now rewrite Hd, Hc.
Qed.

Lemma match_starts_take (s : string) :
  match_starts s = true -> version_like (Str.take_while version_char s) = true.
Proof.
  destruct s as [|d [|c rest]]; simpl; try discriminate.
  - now rewrite andb_false_r.
  - intros H. apply andb_true_iff in H as [Hd Hc].
    rewrite (digit_version_char d Hd), Hc. simpl.
    now rewrite Hd, Hc, all_take_while.
Qed.

Lemma version_like_length (m : string) :
  version_like m = true -> (2 <= String.length m)%nat.
Proof. destruct m as [|d [|c rest]]; simpl; try discriminate. lia. Qed.

Lemma scan_first_maximal (s pre m post : string) :
  scan s = Some (pre, m, post) -> first_maximal s pre m post.
Proof.
  revert pre. induction s as [|c s IH]; intros pre Hscan.
  - discriminate Hscan.
  - cbn [scan] in Hscan. destruct (match_starts (String c s)) eqn:E.
    + injection Hscan as <- <- <-. repeat split.
      * exact (eq_sym (take_drop_while version_char (String c s))).
      * exact (match_starts_take (String c s) E).
      * exact (starts_drop_while version_char (String c s)).
      * intros. simpl. lia.
    + destruct (scan s) as [[[pre0 m0] post0]|] eqn:Hs; [|discriminate].
      injection Hscan as <- <- <-.
      destruct (IH pre0 eq_refl) as (Hline & Hm & Hpost & Hfirst).
      repeat split; try assumption.
      * simpl. now rewrite <- Hline.
      * intros pre' m' post' Hline' Hm'.
        destruct pre' as [|x pre'].
        -- simpl in Hline'. rewrite Hline', (version_like_starts m' post' Hm') in E.
           discriminate E.
        -- simpl in Hline'. injection Hline' as _ Hline'.
           specialize (Hfirst pre' m' post' Hline' Hm'). simpl. lia.
Qed.

Lemma first_maximal_scan (s pre m post : string) :
  first_maximal s pre m post -> scan s = Some (pre, m, post).
Proof.
  revert s. induction pre as [|c pre IH]; intros s (Hline & Hm & Hpost & Hfirst).
  - simpl in Hline. subst s.
    assert (E : match_starts (m ++ post) = true) by now apply version_like_starts.
    destruct (m ++ post) as [|x rest] eqn:Hmp; [discriminate E|].
    cbn [scan]. rewrite E. rewrite <- Hmp.
    destruct (take_while_append version_char m post (version_like_all m Hm) Hpost)
      as [-> ->].
    reflexivity.
  - simpl in Hline. subst s. cbn [scan].
    destruct (match_starts (String c (pre ++ m ++ post))) eqn:E.
    + exfalso.
      specialize (Hfirst ""
                    (Str.take_while version_char (String c (pre ++ m ++ post)))
                    (Str.drop_while version_char (String c (pre ++ m ++ post)))
                    (eq_sym (take_drop_while version_char _))
                    (match_starts_take _ E)).
      simpl in Hfirst. lia.
    + rewrite (IH (pre ++ m ++ post)); [reflexivity|].
      repeat split; try assumption.
      intros pre' m' post' Hline' Hm'.
      specialize (Hfirst (String c pre') m' post').
      simpl in Hfirst. rewrite Hline' in Hfirst.
      specialize (Hfirst eq_refl Hm'). lia.
Qed.

Lemma contains_scan (s : string) :
  contains_version_like s <-> scan s <> None.
Proof.
  split.
  - intros (pre & m & post & Hline & Hm). revert s Hline.
    induction pre as [|c pre IH]; intros s Hline; subst s.
    + simpl.
      assert (E : match_starts (m ++ post) = true) by now apply version_like_starts.
      destruct (m ++ post) as [|x rest]; [discriminate E|].
      cbn [scan]. rewrite E. discriminate.
    + cbn [append scan].
      destruct (match_starts (String c (pre ++ m ++ post))); [discriminate|].
      specialize (IH _ eq_refl).
      destruct (scan (pre ++ m ++ post)) as [[[? ?] ?]|]; [discriminate | contradiction].
  - intros Hscan. destruct (scan s) as [[[pre m] post]|] eqn:E; [|contradiction].
    destruct (scan_first_maximal _ _ _ _ E) as (Hline & Hm & _).
    now exists pre, m, post.
Qed.

(** Whether a line holds a match can be computed. *)
Lemma contains_version_like_dec (s : string) :
  {contains_version_like s} + {~ contains_version_like s}.
Proof.
  destruct (scan s) as [p|] eqn:E.
  - left. apply contains_scan. rewrite E. discriminate.
  - right. intros H. apply contains_scan in H. now apply H.
Defined.

(* ================================================================== *)
(** * [handleError] and [extractKernelVersionString] *)
(* ================================================================== *)

Lemma handleError_exits {A} (errorMessage description : string) (exitCode : Z)
      (st : state) :
  py_getitem exitCodes exitCode = Some description ->
  @handleError A errorMessage exitCode st
  = (SysExit exitCode,
     mkState (spawned st) (printed st ++ error_lines errorMessage exitCode description)).
Proof.
  intros Hcode. unfold handleError, bind, print, sys_exit. simpl.
  rewrite Hcode. simpl. unfold error_lines.
  now rewrite <- !app_assoc.
Qed.

(** The check the script makes on the last character is the one on the
    classes of the pattern. *)
Lemma strip_drop_final_separator (m : string) :
  version_like m = true ->
  (if negb (Str.isdigit (Str.last1 m) || Str.isalpha (Str.last1 m))
   then Str.but_last m else m)
  = drop_final_separator m.
Proof.
  intros Hm. unfold drop_final_separator. rewrite last1_last_char.
  destruct (last_char m) as [c|] eqn:E.
  - pose proof (last_char_all version_char m c (version_like_all m Hm) E) as Hc.
    unfold Str.isdigit, Str.isalpha. simpl. rewrite !andb_true_r.
    rewrite (alnum_on_version_char c Hc).
    now destruct (Re.digit c || Re.lower c || Re.upper c).
  - destruct m as [|d rest]; [discriminate Hm|].
    now apply last_char_some in E.
Qed.

Lemma extract_scan (line : string) (st : state) :
  extractKernelVersionString line st
  = match scan line with
    | Some (_, m, _) => (Return (drop_final_separator m), st)
    | None =>
        (SysExit 3,
         mkState (spawned st)
                 (printed st ++ error_lines (extraction_message line) 3
                                            "Unable to extract kernel version string"))
    end.
Proof.
  unfold extractKernelVersionString. rewrite search_scan.
  destruct (scan line) as [[[pre m] post]|] eqn:E.
  - destruct (scan_first_maximal _ _ _ _ E) as (_ & Hm & _).
    now rewrite (strip_drop_final_separator m Hm).
  - now apply handleError_exits.
Qed.

(** The matcher on lines of the kind the script reads: the leading [\d+]
    gives a digit back to the group when nothing else follows, a lone digit
    is no match, and only one trailing separator is dropped. *)
Example search_gives_back_a_digit : Re.search version_re "7 12" = Some "12".
Proof. reflexivity. Qed.

Example extract_samples :
  map (fun line => fst (extractKernelVersionString line init_state))
      [ "12"; "x 9. y"; "x 9.- y"; "1 22"; "9_8-7"; "a1b"; "1_" ]
  = [ Return "12"; Return "9"; Return "9."; Return "22"; Return "8-7"; Return "1b";
      SysExit 3 ].
Proof. reflexivity. Qed.

Lemma drop_final_separator_nonempty (m : string) :
  version_like m = true -> drop_final_separator m <> "".
Proof.
  intros Hm. destruct m as [|d [|c rest]]; try discriminate Hm.
  unfold drop_final_separator.
  destruct (last_char (String d (String c rest))) as [x|]; [|discriminate].
  destruct (Re.digit x || Re.lower x || Re.upper x); [discriminate|].
  cbn [Str.but_last]. destruct rest; discriminate.
Qed.

(** C3 (as amended).  On a line that holds a substring matching
    [digit (digit | . | - | letter)+] there is a first maximal such
    substring, and [extractKernelVersionString] returns it, without its
    final character when that character is neither a digit nor a letter.
    On ["linux-image-4.7.2-201.x86_64"] the answer is ["4.7.2-201.x86"]:
    letters belong to the class, so the match runs on to the underscore. *)
Theorem extractKernelVersionString_first_maximal :
  (forall line, contains_version_like line ->
                exists pre m post, first_maximal line pre m post)
  /\ (forall line pre m post st,
         first_maximal line pre m post ->
         extractKernelVersionString line st
         = (Return (drop_final_separator m), st))
  /\ extractKernelVersionString "linux-image-4.7.2-201.x86_64" init_state
     = (Return "4.7.2-201.x86", init_state).
Proof.
  repeat split.
  - intros line Hc. apply contains_scan in Hc.
    destruct (scan line) as [[[pre m] post]|] eqn:E; [|contradiction].
    exists pre, m, post. now apply scan_first_maximal.
  - intros line pre m post st Hfm.
    rewrite extract_scan, (first_maximal_scan _ _ _ _ Hfm). reflexivity.
Qed.

Lemma extractKernelVersionString_first_maximal_witness :
  first_maximal "kernel-4.7.2-201.fc24.x86_64" "kernel-" "4.7.2-201.fc24.x86" "_64"
  /\ extractKernelVersionString "kernel-4.7.2-201.fc24.x86_64" init_state
     = (Return "4.7.2-201.fc24.x86", init_state)
  /\ first_maximal "ii  linux-image-4.9.- amd64" "ii  linux-image-" "4.9.-" " amd64"
  /\ extractKernelVersionString "ii  linux-image-4.9.- amd64" init_state
     = (Return "4.9.", init_state).
Proof.
  assert (H1 : first_maximal "kernel-4.7.2-201.fc24.x86_64" "kernel-"
                             "4.7.2-201.fc24.x86" "_64")
    by (apply scan_first_maximal; reflexivity).
  assert (H2 : first_maximal "ii  linux-image-4.9.- amd64" "ii  linux-image-"
                             "4.9.-" " amd64")
    by (apply scan_first_maximal; reflexivity).
  split; [exact H1|]. split.
  - exact (proj1 (proj2 extractKernelVersionString_first_maximal) _ _ _ _ init_state H1).
  - split; [exact H2|].
    exact (proj1 (proj2 extractKernelVersionString_first_maximal) _ _ _ _ init_state H2).
Defined.

(** C3 as it was stated fails on its own example: the script does not
    answer ["4.7.2-201"] for ["linux-image-4.7.2-201.x86_64"]. *)
Lemma extractKernelVersionString_x86_64_counterexample :
  contains_version_like "linux-image-4.7.2-201.x86_64"
  /\ fst (extractKernelVersionString "linux-image-4.7.2-201.x86_64" init_state)
     <> Return "4.7.2-201".
Proof.
  split.
  - apply contains_scan. vm_compute. discriminate.
  - vm_compute. discriminate.
Qed.

Lemma extract_fails (line : string) (st : state) :
  ~ contains_version_like line ->
  extractKernelVersionString line st
  = (SysExit 3,
     logged st (error_lines (extraction_message line) 3
                            "Unable to extract kernel version string")).
Proof.
  intros Hnone. rewrite extract_scan.
  destruct (scan line) as [p|] eqn:E; [|reflexivity].
  exfalso. apply Hnone, contains_scan. rewrite E. discriminate.
Qed.

(** C4.  [extractKernelVersionString] never returns an empty token: on a
    line without a substring matching the pattern it leaves the interpreter
    with exit code 3 after printing the extraction error, on every other
    line it returns, and whatever it returns is not empty. *)
Theorem extractKernelVersionString_never_empty :
  (forall line st,
      ~ contains_version_like line ->
      extractKernelVersionString line st
      = (SysExit 3,
         logged st (error_lines (extraction_message line) 3
                                "Unable to extract kernel version string")))
  /\ (forall line st,
         contains_version_like line ->
         exists v, extractKernelVersionString line st = (Return v, st) /\ v <> "")
  /\ (forall line st v st',
         extractKernelVersionString line st = (Return v, st') -> v <> "").
Proof.
  repeat split.
  - intros line st Hnone. now apply extract_fails.
  - intros line st Hc. apply contains_scan in Hc. rewrite extract_scan.
    destruct (scan line) as [[[pre m] post]|] eqn:E; [|contradiction].
    exists (drop_final_separator m). split; [reflexivity|].
    apply drop_final_separator_nonempty.
    now destruct (scan_first_maximal _ _ _ _ E) as (_ & Hm & _).
  - intros line st v st'. rewrite extract_scan.
    destruct (scan line) as [[[pre m] post]|] eqn:E; [|discriminate].
    intros H. injection H as <- _.
    apply drop_final_separator_nonempty.
    now destruct (scan_first_maximal _ _ _ _ E) as (_ & Hm & _).
Qed.

Lemma extractKernelVersionString_never_empty_witness :
  ~ contains_version_like "no version here 1 "
  /\ fst (extractKernelVersionString "no version here 1 " init_state) = SysExit 3
  /\ extractKernelVersionString "4.7.2-201" init_state = (Return "4.7.2-201", init_state)
  /\ "4.7.2-201" <> "".
Proof.
  assert (H : ~ contains_version_like "no version here 1 ").
  { intros Hc. apply contains_scan in Hc. apply Hc. reflexivity. }
  split; [exact H|]. split.
  - rewrite (proj1 extractKernelVersionString_never_empty _ init_state H). reflexivity.
  - split; [reflexivity|].
    exact (proj2 (proj2 extractKernelVersionString_never_empty)
                 "4.7.2-201" init_state "4.7.2-201" init_state eq_refl).
Defined.

(* ================================================================== *)
(** * Orders of versions *)
(* ================================================================== *)

Section Lex.

Variable A : Type.
Variable cmp : A -> A -> comparison.
Hypothesis cmp_eq : forall a b, cmp a b = Eq <-> a = b.
Hypothesis cmp_antisym : forall a b, cmp b a = CompOpp (cmp a b).
Hypothesis cmp_trans : forall a b c, cmp a b = Lt -> cmp b c = Lt -> cmp a c = Lt.

Lemma lex_eq (xs ys : list A) : Release.lex cmp xs ys = Eq <-> xs = ys.
Proof.
  revert ys. induction xs as [|x xs IH]; intros [|y ys]; simpl;
    try (split; [discriminate | discriminate]); try tauto.
  destruct (cmp x y) eqn:E.
  - apply cmp_eq in E. subst y. rewrite IH. split; [now intros -> | now intros [= ->]].
  - split; [discriminate|]. intros [= -> _].
    assert (H : cmp y y = Eq) by now apply cmp_eq. congruence.
  - split; [discriminate|]. intros [= -> _].
    assert (H : cmp y y = Eq) by now apply cmp_eq. congruence.
Qed.

Lemma lex_antisym (xs ys : list A) :
  Release.lex cmp ys xs = CompOpp (Release.lex cmp xs ys).
Proof.
  revert ys. induction xs as [|x xs IH]; intros [|y ys]; simpl; try reflexivity.
  rewrite (cmp_antisym x y). destruct (cmp x y); simpl; [apply IH | reflexivity..].
Qed.

Lemma lex_trans (xs ys zs : list A) :
  Release.lex cmp xs ys = Lt -> Release.lex cmp ys zs = Lt ->
  Release.lex cmp xs zs = Lt.
Proof.
  revert ys zs. induction xs as [|x xs IH]; intros [|y ys] [|z zs]; simpl;
    try discriminate; try reflexivity.
  destruct (cmp x y) eqn:Exy; try discriminate;
    destruct (cmp y z) eqn:Eyz; try discriminate; intros H1 H2.
  - apply cmp_eq in Exy, Eyz. subst y z.
    assert (H : cmp x x = Eq) by now apply cmp_eq.
    rewrite H. now apply (IH ys).
  - apply cmp_eq in Exy. subst y. now rewrite Eyz.
  - apply cmp_eq in Eyz. subst z. now rewrite Exy.
  - now rewrite (cmp_trans _ _ _ Exy Eyz).
Qed.

End Lex.

Lemma N_compare_trans (a b c : N) :
  (a ?= b)%N = Lt -> (b ?= c)%N = Lt -> (a ?= c)%N = Lt.
Proof. rewrite !N.compare_lt_iff. lia. Qed.

Lemma codes_injective (s t : string) : Release.codes s = Release.codes t -> s = t.
Proof.
  unfold Release.codes. intros H.
  rewrite <- (string_of_list_ascii_of_string s), <- (string_of_list_ascii_of_string t).
  f_equal. revert H.
  generalize (list_ascii_of_string s) (list_ascii_of_string t).
  induction l as [|a l IH]; intros [|b l']; simpl; try discriminate; [reflexivity|].
  intros [= Hab Hl]. f_equal; [|now apply IH].
  unfold Str.code in Hab.
  now rewrite <- (ascii_N_embedding a), <- (ascii_N_embedding b), Hab.
Qed.

Lemma segment_compare_eq (a b : Ranked.segment) :
  Ranked.segment_compare a b = Eq <-> a = b.
Proof.
  destruct a as [m|s], b as [n|t]; simpl; try (split; discriminate).
  - rewrite N.compare_eq_iff. split; [now intros -> | now intros [= ->]].
  - rewrite (lex_eq N N.compare N.compare_eq_iff).
    split; [intros H; now rewrite (codes_injective _ _ H) | now intros [= ->]].
Qed.

Lemma segment_compare_antisym (a b : Ranked.segment) :
  Ranked.segment_compare b a = CompOpp (Ranked.segment_compare a b).
Proof.
  destruct a as [m|s], b as [n|t]; simpl; try reflexivity.
  - apply N.compare_antisym.
  - apply lex_antisym. intros x y. apply N.compare_antisym.
Qed.

Lemma segment_compare_trans (a b c : Ranked.segment) :
  Ranked.segment_compare a b = Lt -> Ranked.segment_compare b c = Lt ->
  Ranked.segment_compare a c = Lt.
Proof.
  destruct a as [m|s], b as [n|t], c as [o|u]; simpl; try discriminate; try reflexivity.
  - apply N_compare_trans.
  - apply (lex_trans N N.compare N.compare_eq_iff N_compare_trans).
Qed.

Lemma ranked_compare_eq (a b : list Ranked.segment) :
  Ranked.compare a b = Eq <-> a = b.
Proof. apply lex_eq, segment_compare_eq. Qed.

Lemma ranked_compare_antisym (a b : list Ranked.segment) :
  Ranked.compare b a = CompOpp (Ranked.compare a b).
Proof. apply lex_antisym, segment_compare_antisym. Qed.

Lemma ranked_compare_trans (a b c : list Ranked.segment) :
  Ranked.compare a b = Lt -> Ranked.compare b c = Lt -> Ranked.compare a c = Lt.
Proof.
  apply lex_trans;
    [apply segment_compare_eq | apply segment_compare_trans].
Qed.

Lemma ranked_order : PkgResourcesOrder Ranked.pkg.
Proof.
  constructor; simpl; unfold Ranked.ltb, Ranked.gtb.
  - intros a b. rewrite (ranked_compare_antisym a b).
    now destruct (Ranked.compare a b).
  - intros a. assert (H : Ranked.compare a a = Eq) by now apply ranked_compare_eq.
    now rewrite H.
  - intros a b c Hab Hbc.
    destruct (Ranked.compare a b) eqn:E1; try discriminate.
    destruct (Ranked.compare b c) eqn:E2; try discriminate.
    now rewrite (ranked_compare_trans _ _ _ E1 E2).
  - intros a b Hab Hba. apply ranked_compare_eq.
    rewrite (ranked_compare_antisym a b) in Hba.
    destruct (Ranked.compare a b); simpl in *; [reflexivity | discriminate..].
Qed.







(* ================================================================== *)
(** * [compareKernels] and [getNewKernels] *)
(* ================================================================== *)

Section CompareFacts.

Context {pkg : PkgResources}.

Lemma compareKernels_cases (a b : string) :
  compareKernels a b = 1%Z \/ compareKernels a b = (-1)%Z \/ compareKernels a b = 0%Z.
Proof.
  unfold compareKernels.
  destruct (version_gt (parse_version a) (parse_version b)); [now left|].
  destruct (version_lt (parse_version a) (parse_version b)); [right; now left|].
  right; now right.
Qed.

Context {order : PkgResourcesOrder pkg}.

Lemma compareKernels_greater (a b : string) :
  compareKernels a b = 1%Z <-> version_lt (parse_version b) (parse_version a) = true.
Proof.
  unfold compareKernels. rewrite gt_converse.
  destruct (version_lt (parse_version b) (parse_version a)).
  - tauto.
  - destruct (version_lt (parse_version a) (parse_version b));
      split; discriminate.
Qed.

Lemma lt_asym (u v : version) : version_lt u v = true -> version_lt v u = false.
Proof.
  intros Huv. destruct (version_lt v u) eqn:Hvu; [|reflexivity].
  pose proof (lt_trans _ _ _ Huv Hvu) as H. rewrite lt_irrefl in H. discriminate H.
Qed.

Lemma compareKernels_less (a b : string) :
  compareKernels a b = (-1)%Z <-> version_lt (parse_version a) (parse_version b) = true.
Proof.
  unfold compareKernels. rewrite gt_converse.
  destruct (version_lt (parse_version a) (parse_version b)) eqn:Hab.
  - rewrite (lt_asym _ _ Hab). tauto.
  - destruct (version_lt (parse_version b) (parse_version a));
      split; discriminate.
Qed.

Lemma compareKernels_equal (a b : string) :
  compareKernels a b = 0%Z <-> parse_version a = parse_version b.
Proof.
  unfold compareKernels. rewrite gt_converse. split.
  - destruct (version_lt (parse_version b) (parse_version a)) eqn:Hba; [discriminate|].
    destruct (version_lt (parse_version a) (parse_version b)) eqn:Hab; [discriminate|].
    intros _. now apply lt_connected.
  - intros ->. now rewrite lt_irrefl.
Qed.

Lemma getNewKernels_loop (currentKernel : string) (installedKernels acc : list string) :
  fold_left
    (fun newKernels installedKernel =>
       if (compareKernels installedKernel currentKernel =? 1)%Z
       then (newKernels ++ [installedKernel])%list
       else newKernels)
    installedKernels acc
  = (acc ++ filter (fun k => (compareKernels k currentKernel =? 1)%Z)
                   installedKernels)%list.
Proof.
  revert acc. induction installedKernels as [|k ks IH]; intros acc; simpl.
  - now rewrite app_nil_r.
  - rewrite IH. destruct (compareKernels k currentKernel =? 1)%Z.
    + now rewrite <- app_assoc.
    + reflexivity.
Qed.

End CompareFacts.




(** C1.  [getNewKernels] returns the installed kernels that compare greater
    than the current one, in the order of the list it was given: it is the
    filter of that list by [compareKernels k current = 1], so a kernel that
    compares equal or less is left out.  For the current kernel
    ["4.7.2-201"] and the installed ["4.5.5"], ["4.7.2-201"], ["4.8.0-1"] it
    returns ["4.8.0-1"] alone. *)
Theorem getNewKernels_filter :
  (forall (pkg : PkgResources) (currentKernel : string) (installedKernels : list string),
      getNewKernels currentKernel installedKernels
      = filter (fun k => (compareKernels k currentKernel =? 1)%Z) installedKernels)
  /\ (forall (pkg : PkgResources) (currentKernel k : string)
             (installedKernels : list string),
         In k (getNewKernels currentKernel installedKernels)
         <-> In k installedKernels /\ compareKernels k currentKernel = 1%Z)
  /\ getNewKernels (pkg := Release.pkg) "4.7.2-201" [ "4.5.5"; "4.7.2-201"; "4.8.0-1" ]
     = [ "4.8.0-1" ].
Proof.
  assert (H : forall (pkg : PkgResources) c L,
             getNewKernels c L = filter (fun k => (compareKernels k c =? 1)%Z) L).
  { intros pkg c L. unfold getNewKernels. now rewrite getNewKernels_loop. }
  split; [exact H|]. split; [|reflexivity].
  intros pkg c k L. rewrite H, filter_In, Z.eqb_eq. tauto.
Qed.

(* ================================================================== *)
(** * Starting processes *)
(* ================================================================== *)

Section ProcessFacts.

Context {host : Host}.

Lemma executeCommandWithExitStatus_status (commandName : string)
      (commandArgs : list string) (st : state) :
  executeCommandWithExitStatus commandName commandArgs st
  = (Return (status_of (run_process (spawned st) (commandName :: commandArgs))),
     started st [commandName :: commandArgs]).
Proof.
  unfold executeCommandWithExitStatus, bind, spawn, started. simpl.
  destruct (run_process (spawned st) (commandName :: commandArgs)); reflexivity.
Qed.

Lemma executeCommandWithOutput_result (commandName : string)
      (commandArgs : list string) (st : state) :
  executeCommandWithOutput commandName commandArgs st
  = (match run_process (spawned st) (commandName :: commandArgs) with
     | StartFailed => Raise OSError
     | Exited status stdout =>
         if (status =? 0)%Z
         then match stdout with
              | Some text => Return text
              | None => Raise UnicodeDecodeError
              end
         else Raise CalledProcessError
     end,
     started st [commandName :: commandArgs]).
Proof.
  unfold executeCommandWithOutput, bind, spawn, started. simpl.
  destruct (run_process (spawned st) (commandName :: commandArgs))
    as [|status [text|]]; [reflexivity | |];
    destruct (status =? 0)%Z; reflexivity.
Qed.

End ProcessFacts.

Lemma started_started (st : state) (cmds cmds' : list argv) :
  started (started st cmds) cmds' = started st (cmds ++ cmds').
Proof. unfold started. simpl. now rewrite app_assoc. Qed.

(** C2 (as amended).  [executeCommandWithOutput] starts the command once.
    When the process exits with status 0 it returns the decoded standard
    output; when the process exits with any other status it fails with
    [CalledProcessError], which is what [check_output] raises; it fails with
    [OSError] when the program cannot be found or started, and with
    [UnicodeDecodeError] when the output of a successful process is not
    UTF-8. *)
Theorem executeCommandWithOutput_checks_status :
  forall (host : Host) (commandName : string) (commandArgs : list string) (st : state),
    let cmd := commandName :: commandArgs in
    (run_process (spawned st) cmd = StartFailed ->
     executeCommandWithOutput commandName commandArgs st
     = (Raise OSError, started st [cmd]))
    /\ (forall text,
           run_process (spawned st) cmd = Exited 0 (Some text) ->
           executeCommandWithOutput commandName commandArgs st
           = (Return text, started st [cmd]))
    /\ (forall status stdout,
           run_process (spawned st) cmd = Exited status stdout -> status <> 0%Z ->
           executeCommandWithOutput commandName commandArgs st
           = (Raise CalledProcessError, started st [cmd]))
    /\ (run_process (spawned st) cmd = Exited 0 None ->
        executeCommandWithOutput commandName commandArgs st
        = (Raise UnicodeDecodeError, started st [cmd])).
Proof.
  intros host commandName commandArgs st cmd. subst cmd.
  rewrite executeCommandWithOutput_result.
  split; [now intros ->|]. split; [now intros text ->|]. split; [|now intros ->].
  intros status stdout -> Hstatus.
  apply Z.eqb_neq in Hstatus. now rewrite Hstatus.
Qed.

Lemma executeCommandWithOutput_checks_status_witness :
  executeCommandWithOutput (host := fedora) "rpm" [ "-qa"; "kernel" ] init_state
  = (Return (String.concat (String Str.newline "")
               [ "kernel-4.5.5-300.fc24.x86_64"; "kernel-4.7.2-201.fc24.x86_64"; "" ]),
     started init_state [ [ "rpm"; "-qa"; "kernel" ] ])
  /\ executeCommandWithOutput (host := bare) "uname" [ "-r" ] init_state
     = (Raise CalledProcessError, started init_state [ uname_command ])
  /\ executeCommandWithOutput (host := bare) "rpm" [ "-qa"; "kernel" ] init_state
     = (Raise OSError, started init_state [ [ "rpm"; "-qa"; "kernel" ] ]).
Proof.
  split; [|split].
  - exact (proj1 (proj2 (executeCommandWithOutput_checks_status
                           fedora "rpm" [ "-qa"; "kernel" ] init_state))
                 _ eq_refl).
  - refine (proj1 (proj2 (proj2 (executeCommandWithOutput_checks_status
                                   bare "uname" [ "-r" ] init_state)))
                  1%Z (Some "4.7.2-201") eq_refl _).
    discriminate.
  - exact (proj1 (executeCommandWithOutput_checks_status
                    bare "rpm" [ "-qa"; "kernel" ] init_state)
                 eq_refl).
Defined.

(** C2 as it was stated fails: on a host where [uname] starts, writes
    ["4.7.2-201"] and exits with status 1, the call does not return that
    output but fails, although the program was found and started. *)
Lemma executeCommandWithOutput_nonzero_counterexample :
  run_process (Host := bare) (spawned init_state) [ "uname"; "-r" ]
  = Exited 1 (Some "4.7.2-201")
  /\ fst (executeCommandWithOutput (host := bare) "uname" [ "-r" ] init_state)
     = Raise CalledProcessError
  /\ fst (executeCommandWithOutput (host := bare) "uname" [ "-r" ] init_state)
     <> Return "4.7.2-201".
Proof. repeat split. discriminate. Qed.

(* ================================================================== *)
(** * [getPackageManager] *)
(* ================================================================== *)

(** C6.  [getPackageManager] probes [rpm], [dpkg] and [pacman] in this
    order, each with [--version], and returns the first whose probe has
    status 0 without probing the ones after it; when the three probes all
    have another status it prints the error and leaves the interpreter with
    exit code 1. *)
Theorem getPackageManager_first_probe :
  forall (host : Host) (st : state),
    let h := spawned st in
    let rpm := status_of (run_process h (probe "rpm")) in
    let dpkg := status_of (run_process (h ++ [ probe "rpm" ]) (probe "dpkg")) in
    let pacman :=
      status_of (run_process (h ++ [ probe "rpm"; probe "dpkg" ]) (probe "pacman")) in
    (rpm = 0%Z ->
     getPackageManager st = (Return "rpm", started st [ probe "rpm" ]))
    /\ (rpm <> 0%Z -> dpkg = 0%Z ->
        getPackageManager st
        = (Return "dpkg", started st [ probe "rpm"; probe "dpkg" ]))
    /\ (rpm <> 0%Z -> dpkg <> 0%Z -> pacman = 0%Z ->
        getPackageManager st
        = (Return "pacman", started st [ probe "rpm"; probe "dpkg"; probe "pacman" ]))
    /\ (rpm <> 0%Z -> dpkg <> 0%Z -> pacman <> 0%Z ->
        getPackageManager st
        = (SysExit 1,
           logged (started st [ probe "rpm"; probe "dpkg"; probe "pacman" ])
                  (error_lines "Package manager could not be determined" 1
                               "Package manager not found"))
        /\ exit_status (fst (getPackageManager st)) = 1%Z).
Proof.
  intros host st h rpm dpkg pacman.
  assert (Hrun : getPackageManager st
                 = if (rpm =? 0)%Z then (Return "rpm", started st [ probe "rpm" ])
                   else if (dpkg =? 0)%Z
                   then (Return "dpkg", started st [ probe "rpm"; probe "dpkg" ])
                   else if (pacman =? 0)%Z
                   then (Return "pacman",
                         started st [ probe "rpm"; probe "dpkg"; probe "pacman" ])
                   else (SysExit 1,
                         logged (started st [ probe "rpm"; probe "dpkg"; probe "pacman" ])
                                (error_lines "Package manager could not be determined" 1
                                             "Package manager not found"))).
  { unfold getPackageManager, bind.
    rewrite executeCommandWithExitStatus_status. fold h. fold (probe "rpm"). fold rpm.
    destruct (rpm =? 0)%Z; [reflexivity|].
    rewrite executeCommandWithExitStatus_status.
    change (spawned (started st [ probe "rpm" ])) with (h ++ [ probe "rpm" ])%list.
    fold (probe "dpkg"). fold dpkg.
    destruct (dpkg =? 0)%Z; [now rewrite started_started|].
    rewrite executeCommandWithExitStatus_status, !started_started.
    change (spawned (started st ([ probe "rpm" ] ++ [ probe "dpkg" ])))
      with (h ++ [ probe "rpm"; probe "dpkg" ])%list.
    fold (probe "pacman"). fold pacman.
    destruct (pacman =? 0)%Z; [reflexivity|].
    now rewrite (handleError_exits _ "Package manager not found"). }
  rewrite Hrun.
  split; [intros H; now rewrite H|].
  split; [intros H1 H2; apply Z.eqb_neq in H1; now rewrite H1, H2|].
  split; [intros H1 H2 H3; apply Z.eqb_neq in H1, H2; now rewrite H1, H2, H3|].
  intros H1 H2 H3. apply Z.eqb_neq in H1, H2, H3. now rewrite H1, H2, H3.
Qed.

Lemma getPackageManager_first_probe_witness :
  getPackageManager (host := fedora) init_state
  = (Return "rpm", started init_state [ probe "rpm" ])
  /\ getPackageManager (host := debian) init_state
     = (Return "dpkg", started init_state [ probe "rpm"; probe "dpkg" ])
  /\ exit_status (fst (getPackageManager (host := bare) init_state)) = 1%Z.
Proof.
  split; [|split].
  - exact (proj1 (getPackageManager_first_probe fedora init_state) eq_refl).
  - refine (proj1 (proj2 (getPackageManager_first_probe debian init_state)) _ eq_refl).
    discriminate.
  - refine (proj2 (proj2 (proj2 (proj2 (getPackageManager_first_probe bare init_state)))
                         _ _ _)); discriminate.
Defined.

(* ================================================================== *)
(** * [signKernel] *)
(* ================================================================== *)

Section SignFacts.

Context {host : Host}.
Variables kernel privateKeyPath publicKeyPath : string.

Lemma sign_one (module : string) (st : state) :
  sign_module kernel privateKeyPath publicKeyPath module st
  = if (status_of (run_process (spawned st)
                     (sign_command kernel privateKeyPath publicKeyPath module)) =? 0)%Z
    then (Return tt,
          started st [ sign_command kernel privateKeyPath publicKeyPath module ])
    else (SysExit 2,
          logged (started st [ sign_command kernel privateKeyPath publicKeyPath module ])
                 (error_lines ("Error signing kernel module: " ++ module) 2
                              "Unable to sign a kernel module")).
Proof.
  unfold sign_module, bind. rewrite executeCommandWithExitStatus_status.
  fold (sign_command kernel privateKeyPath publicKeyPath module).
  destruct (status_of _ =? 0)%Z; simpl.
  - reflexivity.
  - now rewrite (handleError_exits _ "Unable to sign a kernel module").
Qed.

(** Every module signs: the loop starts one process per module. *)
Lemma sign_loop_all (names : list string) :
  forall st,
    (forall i,
        (i < List.length names)%nat ->
        status_of
          (run_process
             (spawned st
              ++ firstn i (map (sign_command kernel privateKeyPath publicKeyPath) names))
             (nth i (map (sign_command kernel privateKeyPath publicKeyPath) names) []))
        = 0%Z) ->
    for_each names (sign_module kernel privateKeyPath publicKeyPath) st
    = (Return tt,
       started st (map (sign_command kernel privateKeyPath publicKeyPath) names)).
Proof.
  induction names as [|module names IH]; intros st Hall.
  - unfold started. simpl. rewrite app_nil_r. now destruct st.
  - cbn [for_each]. unfold bind. rewrite sign_one.
    pose proof (Hall 0%nat ltac:(simpl; lia)) as H0. simpl in H0.
    rewrite app_nil_r in H0. rewrite H0. simpl.
    rewrite IH.
    + now rewrite started_started.
    + intros i Hi. specialize (Hall (S i) ltac:(simpl; lia)).
      simpl in Hall. simpl. now rewrite <- app_assoc.
Qed.

(** The module at position [i] is the first that does not sign: the loop
    stops there. *)
Lemma sign_loop_stop (names : list string) :
  forall st i module,
    nth_error names i = Some module ->
    (forall j,
        (j < i)%nat ->
        status_of
          (run_process
             (spawned st
              ++ firstn j (map (sign_command kernel privateKeyPath publicKeyPath) names))
             (nth j (map (sign_command kernel privateKeyPath publicKeyPath) names) []))
        = 0%Z) ->
    status_of
      (run_process
         (spawned st
          ++ firstn i (map (sign_command kernel privateKeyPath publicKeyPath) names))
         (sign_command kernel privateKeyPath publicKeyPath module))
    <> 0%Z ->
    for_each names (sign_module kernel privateKeyPath publicKeyPath) st
    = (SysExit 2,
       logged
         (started st
            (firstn (S i) (map (sign_command kernel privateKeyPath publicKeyPath) names)))
         (error_lines ("Error signing kernel module: " ++ module) 2
                      "Unable to sign a kernel module")).
Proof.
  induction names as [|name names IH]; intros st i module Hnth Hbefore Hfail.
  - destruct i; discriminate Hnth.
  - cbn [for_each]. unfold bind. rewrite sign_one. destruct i as [|i].
    + injection Hnth as ->. simpl in Hfail. rewrite app_nil_r in Hfail.
      apply Z.eqb_neq in Hfail. now rewrite Hfail.
    + pose proof (Hbefore 0%nat ltac:(lia)) as H0. simpl in H0.
      rewrite app_nil_r in H0. rewrite H0. simpl.
      rewrite (IH _ i module Hnth).
      * now rewrite started_started.
      * intros j Hj. specialize (Hbefore (S j) ltac:(lia)).
        simpl in Hbefore. simpl. now rewrite <- app_assoc.
      * simpl in Hfail. simpl. now rewrite <- app_assoc.
Qed.

End SignFacts.

(** C7.  [signKernel] signs the four modules [nvidia-drm.ko], [nvidia.ko],
    [nvidia-modeset.ko], [nvidia-uvm.ko] in this order, each with one run of
    the signing binary of the kernel on [sha256], the private key, the
    public key and the path of the module.  When the four runs have status 0
    the four processes are all that was started and the call returns.  When
    the run for some module is the first with another status, the call
    prints the error that names this module and leaves the interpreter with
    exit code 2; the runs before it have happened, no later module is
    tried. *)
Theorem signKernel_stops_at_first_failure :
  forall (host : Host) (kernel privateKeyPath publicKeyPath : string) (st : state),
    let cmds := map (sign_command kernel privateKeyPath publicKeyPath) MODULE_NAMES in
    let status (i : nat) :=
      status_of (run_process (spawned st ++ firstn i cmds) (nth i cmds [])) in
    cmds = [ [ "/usr/src/kernels/" ++ kernel ++ "/scripts/sign-file"; "sha256";
               privateKeyPath; publicKeyPath;
               ("/usr/lib/modules/" ++ kernel ++ "/extra/nvidia/") ++ "nvidia-drm.ko" ];
             [ "/usr/src/kernels/" ++ kernel ++ "/scripts/sign-file"; "sha256";
               privateKeyPath; publicKeyPath;
               ("/usr/lib/modules/" ++ kernel ++ "/extra/nvidia/") ++ "nvidia.ko" ];
             [ "/usr/src/kernels/" ++ kernel ++ "/scripts/sign-file"; "sha256";
               privateKeyPath; publicKeyPath;
               ("/usr/lib/modules/" ++ kernel ++ "/extra/nvidia/") ++ "nvidia-modeset.ko" ];
             [ "/usr/src/kernels/" ++ kernel ++ "/scripts/sign-file"; "sha256";
               privateKeyPath; publicKeyPath;
               ("/usr/lib/modules/" ++ kernel ++ "/extra/nvidia/") ++ "nvidia-uvm.ko" ] ]
    /\ ((forall i, (i < 4)%nat -> status i = 0%Z) ->
        signKernel kernel privateKeyPath publicKeyPath st
        = (Return tt, started st cmds))
    /\ (forall i module,
           nth_error MODULE_NAMES i = Some module ->
           (forall j, (j < i)%nat -> status j = 0%Z) ->
           status i <> 0%Z ->
           signKernel kernel privateKeyPath publicKeyPath st
           = (SysExit 2,
              logged (started st (firstn (S i) cmds))
                     (error_lines ("Error signing kernel module: " ++ module) 2
                                  "Unable to sign a kernel module"))
           /\ exit_status (fst (signKernel kernel privateKeyPath publicKeyPath st)) = 2%Z).
Proof.
  intros host kernel privateKeyPath publicKeyPath st cmds status.
  split; [reflexivity|]. split.
  - intros Hall. unfold signKernel. now apply sign_loop_all.
  - intros i module Hnth Hbefore Hfail.
    assert (Hrun : signKernel kernel privateKeyPath publicKeyPath st
                   = (SysExit 2,
                      logged (started st (firstn (S i) cmds))
                             (error_lines ("Error signing kernel module: " ++ module) 2
                                          "Unable to sign a kernel module"))).
    { unfold signKernel. apply sign_loop_stop; try assumption.
      unfold status in Hfail. fold cmds.
      replace (sign_command kernel privateKeyPath publicKeyPath module)
        with (nth i cmds []); [exact Hfail|].
      unfold cmds. apply nth_error_nth.
      now rewrite nth_error_map, Hnth. }
    now rewrite Hrun.
Qed.

Lemma signKernel_stops_at_first_failure_witness :
  signKernel (host := fedora) "4.8.0-1" "private.key" "public.der" init_state
  = (Return tt,
     started init_state
             (map (sign_command "4.8.0-1" "private.key" "public.der") MODULE_NAMES))
  /\ signKernel (host := debian) "4.8.0-1" "private.key" "public.der" init_state
     = (SysExit 2,
        logged (started init_state
                        [ sign_command "4.8.0-1" "private.key" "public.der" "nvidia-drm.ko";
                          sign_command "4.8.0-1" "private.key" "public.der" "nvidia.ko" ])
               (error_lines "Error signing kernel module: nvidia.ko" 2
                            "Unable to sign a kernel module")).
Proof.
  split.
  - refine (proj1 (proj2 (signKernel_stops_at_first_failure
                            fedora "4.8.0-1" "private.key" "public.der" init_state)) _).
    intros i Hi. destruct i as [|[|[|[|i]]]]; [reflexivity.. | lia].
  - refine (proj1 (proj2 (proj2 (signKernel_stops_at_first_failure
                                   debian "4.8.0-1" "private.key" "public.der" init_state))
                         1%nat "nvidia.ko" eq_refl _ _)).
    + intros j Hj. destruct j as [|j]; [reflexivity | lia].
    + discriminate.
Defined.

(* ================================================================== *)
(** * Trailing whitespace and extraction *)
(* ================================================================== *)

Lemma isspace_not_version_char (c : ascii) :
  Str.chr_isspace c = true -> version_char c = false.
Proof.
  destruct c as [[] [] [] [] [] [] [] []]; vm_compute; intros H;
    first [reflexivity | discriminate H].
Qed.

Lemma rstrip_split (s : string) :
  exists ws, s = Str.rstrip s ++ ws /\ Str.all Str.chr_isspace ws = true.
Proof.
  induction s as [|c s (ws & Hs & Hws)].
  - now exists "".
  - cbn [Str.rstrip]. destruct (Str.rstrip s) as [|d r] eqn:E.
    + simpl in Hs. subst s. destruct (Str.chr_isspace c) eqn:Hc.
      * exists (String c ws). simpl. now rewrite Hc, Hws.
      * now exists ws.
    + exists ws. split; [|exact Hws]. simpl. now rewrite Hs at 1.
Qed.

Lemma match_starts_version_char (s : string) :
  match_starts s = true -> Str.starts_with version_char s = true.
Proof.
  destruct s as [|d s]; simpl; [discriminate|].
  intros H. apply andb_true_iff in H as [Hd _]. now apply digit_version_char.
Qed.

Lemma take_while_stuck (p : ascii -> bool) (s : string) :
  Str.starts_with p s = false -> Str.take_while p s = "".
Proof. destruct s as [|c s]; simpl; [reflexivity | now intros ->]. Qed.

Lemma scan_blank (ws : string) :
  Str.all (fun c => negb (version_char c)) ws = true -> scan ws = None.
Proof.
  induction ws as [|x r IH]; intros Hblank; [reflexivity|].
  simpl in Hblank. apply andb_true_iff in Hblank as [Hx Hr].
  apply negb_true_iff in Hx.
  cbn [scan]. destruct (match_starts (String x r)) eqn:E.
  - apply match_starts_version_char in E. simpl in E. congruence.
  - now rewrite (IH Hr).
Qed.

Section Blank.

(** [ws] holds no character a match is made of. *)
Variable ws : string.
Hypothesis blank : Str.all (fun c => negb (version_char c)) ws = true.

Lemma blank_starts : Str.starts_with version_char ws = false.
Proof.
  revert blank. destruct ws as [|c r]; [reflexivity|]. simpl.
  intros H. apply andb_true_iff in H as [Hc _]. now apply negb_true_iff in Hc.
Qed.

Lemma starts_with_append_blank (a : string) :
  Str.starts_with version_char (a ++ ws) = Str.starts_with version_char a.
Proof. destruct a as [|c a]; [exact blank_starts | reflexivity]. Qed.

Lemma match_starts_append_blank (a : string) :
  match_starts (a ++ ws) = match_starts a.
Proof.
  destruct a as [|d a].
  - simpl. destruct (match_starts ws) eqn:E; [|reflexivity].
    apply match_starts_version_char in E. now rewrite blank_starts in E.
  - simpl. now rewrite starts_with_append_blank.
Qed.

Lemma take_while_append_blank (a : string) :
  Str.take_while version_char (a ++ ws) = Str.take_while version_char a.
Proof.
  induction a as [|c a IH]; simpl.
  - apply take_while_stuck, blank_starts.
  - now rewrite IH.
Qed.

Lemma drop_while_append_blank (a : string) :
  Str.drop_while version_char (a ++ ws) = Str.drop_while version_char a ++ ws.
Proof.
  induction a as [|c a IH]; simpl.
  - apply drop_while_stuck, blank_starts.
  - now destruct (version_char c).
Qed.

Lemma scan_append_blank (a : string) :
  scan (a ++ ws)
  = match scan a with
    | Some (pre, m, post) => Some (pre, m, post ++ ws)
    | None => None
    end.
Proof.
  induction a as [|c a IH].
  - exact (scan_blank ws blank).
  - change (String c a ++ ws) with (String c (a ++ ws)).
    cbn [scan].
    change (String c (a ++ ws)) with (String c a ++ ws).
    rewrite match_starts_append_blank, take_while_append_blank,
      drop_while_append_blank.
    destruct (match_starts (String c a)); [reflexivity|].
    rewrite IH. destruct (scan a) as [[[pre m] post]|]; reflexivity.
Qed.

End Blank.

Lemma isspace_blank (ws : string) :
  Str.all Str.chr_isspace ws = true ->
  Str.all (fun c => negb (version_char c)) ws = true.
Proof.
  induction ws as [|c r IH]; simpl; [reflexivity|].
  intros H. apply andb_true_iff in H as [Hc Hr].
  now rewrite (isspace_not_version_char c Hc), IH.
Qed.

(** What is extracted from a text does not depend on its trailing
    whitespace. *)
Lemma extract_rstrip (s : string) (st st' : state) :
  fst (extractKernelVersionString s st)
  = fst (extractKernelVersionString (Str.rstrip s) st').
Proof.
  destruct (rstrip_split s) as (ws & Hs & Hws).
  rewrite !extract_scan. rewrite Hs at 1.
  rewrite (scan_append_blank ws (isspace_blank ws Hws)).
  destruct (scan (Str.rstrip s)) as [[[pre m] post]|]; reflexivity.
Qed.

(* ================================================================== *)
(** * [getCurrentKernel] *)
(* ================================================================== *)


(* ================================================================== *)
(** * [getInstalledKernels] *)
(* ================================================================== *)

Section CollectFacts.


Lemma collect_all (lines tokens : list string) :
  Forall2 extracts lines tokens ->
  forall acc st, for_fold lines acc collect_version st = (Return (acc ++ tokens)%list, st).
Proof.
  induction 1 as [|line token lines tokens Hline _ IH]; intros acc st.
  - simpl. now rewrite app_nil_r.
  - cbn [for_fold]. unfold bind at 1. unfold collect_version at 1. unfold bind at 1.
    rewrite (Hline st). unfold ret at 1. rewrite IH. now rewrite <- app_assoc.
Qed.

Lemma collect_stop (before tokens : list string) (bad : string) (after : list string) :
  Forall2 extracts before tokens ->
  ~ contains_version_like bad ->
  forall acc st,
    for_fold (before ++ bad :: after) acc collect_version st
    = (SysExit 3,
       logged st (error_lines (extraction_message bad) 3
                              "Unable to extract kernel version string")).
Proof.
  intros Hbefore Hbad.
  induction Hbefore as [|line token lines tokens Hline _ IH]; intros acc st.
  - cbn [app for_fold]. unfold bind at 1. unfold collect_version at 1. unfold bind at 1.
    now rewrite (extract_fails bad st Hbad).
  - cbn [app for_fold]. unfold bind at 1. unfold collect_version at 1. unfold bind at 1.
    rewrite (Hline st). unfold ret at 1. apply IH.
Qed.

Lemma collect_returns (lines : list string) :
  forall acc st result st',
    for_fold lines acc collect_version st = (Return result, st') ->
    exists tokens, result = (acc ++ tokens)%list /\ Forall2 extracts lines tokens.
Proof.
  induction lines as [|line lines IH]; intros acc st result st' Hrun.
  - simpl in Hrun. injection Hrun as <- _. exists []. now rewrite app_nil_r.
  - cbn [for_fold] in Hrun. unfold bind at 1 in Hrun. unfold collect_version at 1 in Hrun.
    unfold bind at 1 in Hrun. rewrite extract_scan in Hrun.
    destruct (scan line) as [[[pre m] post]|] eqn:E; [|discriminate Hrun].
    unfold ret at 1 in Hrun.
    destruct (IH _ _ _ _ Hrun) as (tokens & -> & Hrest).
    exists (drop_final_separator m :: tokens). split.
    + now rewrite <- app_assoc.
    + constructor; [|exact Hrest].
      intros s. now rewrite extract_scan, E.
Qed.

End CollectFacts.

Lemma getInstalledKernels_run {host : Host} (packageManager commandName : string)
      (commandArgs : list string) (st : state) :
  listing_command packageManager = Some (commandName :: commandArgs) ->
  getInstalledKernels packageManager st
  = (output <- executeCommandWithOutput commandName commandArgs ;;
     for_fold (Str.split_lines (Str.rstrip output)) []
              (fun kernelVersions line =>
                 versionString <- extractKernelVersionString line ;;
                 ret (kernelVersions ++ [versionString])%list)) st.
Proof.
  unfold listing_command, getInstalledKernels.
  destruct (packageManager =? "rpm"); [now intros [= <- <-]|].
  destruct (packageManager =? "dpkg"); [now intros [= <- <-]|].
  destruct (packageManager =? "pacman"); [now intros [= <- <-]|].
  discriminate.
Qed.

(** C8.  Each of the three package managers has a listing command of its
    own.  [getInstalledKernels] runs the one of the package manager it is
    given, splits the output (without its trailing whitespace) into lines
    and returns the list that holds, line after line and in their order, the
    token extracted from the line: nothing is dropped, merged or moved.
    When some line has no token, the call leaves the interpreter with exit
    code 3 at the first such line and returns nothing. *)
Theorem getInstalledKernels_one_token_per_line :
  (listing_command "rpm" = Some [ "rpm"; "-qa"; "kernel" ]
   /\ listing_command "dpkg" = Some [ "dpkg"; "--list"; "|"; "grep"; "linux-image" ]
   /\ listing_command "pacman" = Some [ "pacman"; "-Q"; "|"; "grep"; "linux" ]
   /\ listing_command "rpm" <> listing_command "dpkg"
   /\ listing_command "rpm" <> listing_command "pacman"
   /\ listing_command "dpkg" <> listing_command "pacman")
  /\ forall (host : Host) (packageManager : string) (cmd : argv) (st : state)
            (output : string),
      listing_command packageManager = Some cmd ->
      run_process (spawned st) cmd = Exited 0 (Some output) ->
      let lines := Str.split_lines (Str.rstrip output) in
      (forall tokens,
          Forall2 extracts lines tokens ->
          getInstalledKernels packageManager st = (Return tokens, started st [ cmd ]))
      /\ (forall tokens st',
             getInstalledKernels packageManager st = (Return tokens, st') ->
             Forall2 extracts lines tokens)
      /\ (forall before bad after tokens,
             lines = (before ++ bad :: after)%list ->
             Forall2 extracts before tokens ->
             ~ contains_version_like bad ->
             getInstalledKernels packageManager st
             = (SysExit 3,
                logged (started st [ cmd ])
                       (error_lines (extraction_message bad) 3
                                    "Unable to extract kernel version string"))).
Proof.
  split.
  - repeat split; discriminate.
  - intros host packageManager cmd st output Hcmd Hrun lines.
    destruct cmd as [|commandName commandArgs].
    { unfold listing_command in Hcmd.
      destruct (packageManager =? "rpm"); [discriminate|].
      destruct (packageManager =? "dpkg"); [discriminate|].
      destruct (packageManager =? "pacman"); discriminate. }
    assert (Hfold : getInstalledKernels packageManager st
                    = for_fold lines []
                        (fun kernelVersions line =>
                           versionString <- extractKernelVersionString line ;;
                           ret (kernelVersions ++ [versionString])%list)
                        (started st [ commandName :: commandArgs ])).
    { rewrite (getInstalledKernels_run _ _ _ _ Hcmd).
      unfold bind at 1. now rewrite executeCommandWithOutput_result, Hrun. }
    rewrite Hfold.
    split; [|split].
    + intros tokens Htokens. now rewrite (collect_all lines tokens Htokens).
    + intros tokens st' Hreturn.
      destruct (collect_returns _ _ _ _ _ Hreturn) as (tokens' & -> & Htokens).
      exact Htokens.
    + intros before bad after tokens Hlines Hbefore Hbad.
      rewrite Hlines. now rewrite (collect_stop before tokens bad after Hbefore Hbad).
Qed.

Lemma getInstalledKernels_one_token_per_line_witness :
  getInstalledKernels (host := fedora) "rpm" init_state
  = (Return [ "4.5.5-300.fc24.x86"; "4.7.2-201.fc24.x86" ],
     started init_state [ [ "rpm"; "-qa"; "kernel" ] ]).
Proof.
  refine (proj1 (proj2 getInstalledKernels_one_token_per_line
                       fedora "rpm" [ "rpm"; "-qa"; "kernel" ] init_state _
                       eq_refl eq_refl)
                _ _).
  assert (Hlines : Str.split_lines
                     (Str.rstrip (String.concat (String Str.newline "")
                                    [ "kernel-4.5.5-300.fc24.x86_64";
                                      "kernel-4.7.2-201.fc24.x86_64"; "" ]))
                   = [ "kernel-4.5.5-300.fc24.x86_64"; "kernel-4.7.2-201.fc24.x86_64" ])
    by (vm_compute; reflexivity).
  cbv zeta. rewrite Hlines.
  constructor; [|constructor; [|constructor]];
    intros st; rewrite extract_scan; vm_compute; reflexivity.
Defined.

(* ================================================================== *)
(** * [main] when nothing is to be signed *)
(* ================================================================== *)

Lemma print_logged (line : string) (st : state) :
  print line st = (Return tt, logged st [ line ]).
Proof. reflexivity. Qed.

Lemma logged_logged (st : state) (ls ls' : list string) :
  logged (logged st ls) ls' = logged st (ls ++ ls').
Proof. unfold logged. simpl. now rewrite app_assoc. Qed.

Lemma getNewKernels_none {pkg : PkgResources} (currentKernel : string)
      (installedKernels : list string) :
  (forall k, In k installedKernels -> compareKernels k currentKernel <> 1%Z) ->
  getNewKernels currentKernel installedKernels = [].
Proof.
  intros Hnone. unfold getNewKernels. rewrite getNewKernels_loop. simpl.
  induction installedKernels as [|k ks IH]; [reflexivity|]. simpl.
  destruct (compareKernels k currentKernel =? 1)%Z eqn:E.
  - apply Z.eqb_eq in E. exfalso. apply (Hnone k); [now left | exact E].
  - apply IH. intros k' Hk'. apply Hnone. now right.
Qed.

(** C10.  When no installed kernel compares greater than the current one,
    [getNewKernels] returns the empty list; [signNewKernels] on the empty
    list starts no process and returns; and [main], once the package
    manager, the current kernel and the installed kernels are found, prints
    its last lines and returns without starting any further process, so the
    script ends with exit status 0. *)
Theorem main_nothing_to_sign :
  (forall (pkg : PkgResources) (currentKernel : string) (installedKernels : list string),
      (forall k, In k installedKernels -> compareKernels k currentKernel <> 1%Z) ->
      getNewKernels currentKernel installedKernels = [])
  /\ (forall (host : Host) (privateKeyPath publicKeyPath : string) (st : state),
         signNewKernels [] privateKeyPath publicKeyPath st = (Return tt, st))
  /\ (forall (host : Host) (pkg : PkgResources) (privateKeyFile publicKeyFile : string)
             (st st1 st2 st3 : state) (packageManager currentKernel : string)
             (installedKernels : list string),
         getPackageManager (logged st banner) = (Return packageManager, st1) ->
         getCurrentKernel (logged st1 [ "DEBUG: Package Manager: " ++ packageManager ])
         = (Return currentKernel, st2) ->
         getInstalledKernels packageManager
                             (logged st2 [ "DEBUG: Current kernel: " ++ currentKernel ])
         = (Return installedKernels, st3) ->
         (forall k, In k installedKernels -> compareKernels k currentKernel <> 1%Z) ->
         main privateKeyFile publicKeyFile st
         = (Return tt,
            logged st3 [ "DEBUG: Installed kernels: " ++ repr_list installedKernels;
                         "DEBUG: New kernels: []";
                         "DEBUG: New kernels should now be signed" ])
         /\ spawned (snd (main privateKeyFile publicKeyFile st)) = spawned st3
         /\ exit_status (fst (main privateKeyFile publicKeyFile st)) = 0%Z).
Proof.
  split; [intros pkg; apply getNewKernels_none|].
  split; [reflexivity|].
  intros host pkg privateKeyFile publicKeyFile st st1 st2 st3
         packageManager currentKernel installedKernels Hpm Hcur Hinst Hnone.
  assert (Hmain : main privateKeyFile publicKeyFile st
                  = (Return tt,
                     logged st3 [ "DEBUG: Installed kernels: " ++ repr_list installedKernels;
                                  "DEBUG: New kernels: []";
                                  "DEBUG: New kernels should now be signed" ])).
  { unfold main.
    repeat (unfold bind at 1; rewrite print_logged; rewrite ?logged_logged).
    match goal with
    | |- context [logged st ?lines] => change lines with banner
    end.
    unfold bind at 1. rewrite Hpm.
    unfold bind at 1. rewrite print_logged.
    unfold bind at 1. rewrite Hcur.
    unfold bind at 1. rewrite print_logged.
    unfold bind at 1. rewrite Hinst.
    unfold bind at 1. rewrite print_logged.
    rewrite (getNewKernels_none _ _ Hnone).
    unfold bind at 1. rewrite print_logged.
    unfold bind at 1. cbn [signNewKernels for_each]. unfold ret at 1.
    rewrite print_logged, !logged_logged. reflexivity. }
  rewrite Hmain. repeat split.
Qed.

Lemma main_nothing_to_sign_witness :
  fst (main (host := fedora) (pkg := Release.pkg) "private.key" "public.der" init_state)
  = Return tt
  /\ spawned (snd (main (host := fedora) (pkg := Release.pkg)
                        "private.key" "public.der" init_state))
     = [ probe "rpm"; uname_command; [ "rpm"; "-qa"; "kernel" ] ]
  /\ exit_status (fst (main (host := fedora) (pkg := Release.pkg)
                            "private.key" "public.der" init_state))
     = 0%Z.
Proof.
  pose (st1 := started (logged init_state banner) [ probe "rpm" ]).
  pose (st2 := started (logged st1 [ "DEBUG: Package Manager: rpm" ]) [ uname_command ]).
  pose (st3 := started (logged st2 [ "DEBUG: Current kernel: 4.7.2-201.fc24.x86" ])
                       [ [ "rpm"; "-qa"; "kernel" ] ]).
  assert (H1 : getPackageManager (host := fedora) (logged init_state banner)
               = (Return "rpm", st1)) by (vm_compute; reflexivity).
  assert (H2 : getCurrentKernel (host := fedora)
                 (logged st1 [ "DEBUG: Package Manager: " ++ "rpm" ])
               = (Return "4.7.2-201.fc24.x86", st2)) by (vm_compute; reflexivity).
  assert (H3 : getInstalledKernels (host := fedora) "rpm"
                 (logged st2 [ "DEBUG: Current kernel: " ++ "4.7.2-201.fc24.x86" ])
               = (Return [ "4.5.5-300.fc24.x86"; "4.7.2-201.fc24.x86" ], st3))
    by (vm_compute; reflexivity).
  assert (Hnone : forall k,
             In k [ "4.5.5-300.fc24.x86"; "4.7.2-201.fc24.x86" ] ->
             compareKernels (pkg := Release.pkg) k "4.7.2-201.fc24.x86" <> 1%Z).
  { intros k [<-|[<-|[]]]; vm_compute; discriminate. }
  destruct (proj2 (proj2 main_nothing_to_sign)
                  fedora Release.pkg "private.key" "public.der"
                  init_state st1 st2 st3 "rpm" "4.7.2-201.fc24.x86"
                  [ "4.5.5-300.fc24.x86"; "4.7.2-201.fc24.x86" ]
                  H1 H2 H3 Hnone)
    as (Hmain & Hspawned & Hexit).
  split; [now rewrite Hmain|]. split; [|exact Hexit].
  rewrite Hspawned. reflexivity.
Defined.

(* ================================================================== *)
(** * More on [handleError] and the two ways to run a command *)
(* ================================================================== *)

Lemma exitCodes_in_range (code : Z) :
  (-4 <= code < 4)%Z -> exists description, py_getitem exitCodes code = Some description.
Proof.
  intros Hcode.
  assert (H : code = (-4)%Z \/ code = (-3)%Z \/ code = (-2)%Z \/ code = (-1)%Z
              \/ code = 0%Z \/ code = 1%Z \/ code = 2%Z \/ code = 3%Z) by lia.
  destruct H as [->|[->|[->|[->|[->|[->|[->| ->]]]]]]]; eexists; reflexivity.
Qed.

Lemma exitCodes_out_of_range (code : Z) :
  (code < -4 \/ 4 <= code)%Z -> py_getitem exitCodes code = None.
Proof.
  intros Hcode. unfold py_getitem.
  destruct (0 <=? code)%Z eqn:E.
  - apply Z.leb_le in E. apply nth_error_None. simpl. lia.
  - apply Z.leb_gt in E.
    replace (- Z.of_nat (List.length exitCodes) <=? code)%Z with false; [reflexivity|].
    symmetry. apply Z.leb_gt. simpl. lia.
Qed.

(** X1.  [handleError] never returns and never starts a process.  With a
    code that indexes the table of exit codes (from -4 to 3, Python counting
    negative indices from the end) it prints its three lines and leaves the
    interpreter with that code; with any other code the table lookup fails
    after the first two lines are printed, and the call ends in
    [IndexError] instead of the exit that was asked for. *)
Theorem handleError_never_returns :
  forall (A : Type) (errorMessage : string) (exitCode : Z) (st : state),
    ((-4 <= exitCode < 4)%Z ->
     exists description,
       py_getitem exitCodes exitCode = Some description
       /\ @handleError A errorMessage exitCode st
          = (SysExit exitCode, logged st (error_lines errorMessage exitCode description)))
    /\ ((exitCode < -4 \/ 4 <= exitCode)%Z ->
        @handleError A errorMessage exitCode st
        = (Raise IndexError, logged st [ __title__ ++ " Error: " ++ errorMessage; "" ]))
    /\ (forall a, fst (@handleError A errorMessage exitCode st) <> Return a)
    /\ spawned (snd (@handleError A errorMessage exitCode st)) = spawned st.
Proof.
  intros A errorMessage exitCode st.
  assert (Hin : (-4 <= exitCode < 4)%Z ->
                exists description,
                  py_getitem exitCodes exitCode = Some description
                  /\ @handleError A errorMessage exitCode st
                     = (SysExit exitCode,
                        logged st (error_lines errorMessage exitCode description))).
  { intros Hcode. destruct (exitCodes_in_range exitCode Hcode) as [d Hd].
    exists d. split; [exact Hd|]. now apply handleError_exits. }
  assert (Hout : (exitCode < -4 \/ 4 <= exitCode)%Z ->
                 @handleError A errorMessage exitCode st
                 = (Raise IndexError,
                    logged st [ __title__ ++ " Error: " ++ errorMessage; "" ])).
  { intros Hcode. unfold handleError, bind, print, raise, logged. simpl.
    rewrite (exitCodes_out_of_range exitCode Hcode). simpl.
    now rewrite <- app_assoc. }
  split; [exact Hin|]. split; [exact Hout|].
  destruct (Z_lt_ge_dec exitCode (-4)) as [Hlow|Hlow];
    [|destruct (Z_lt_ge_dec exitCode 4) as [Hhigh|Hhigh]].
  - rewrite Hout by lia. split; [discriminate | reflexivity].
  - destruct Hin as (d & _ & ->); [lia|]. split; [discriminate | reflexivity].
  - rewrite Hout by lia. split; [discriminate | reflexivity].
Qed.

Lemma handleError_never_returns_witness :
  @handleError unit "Error signing kernel module: nvidia.ko" 2 init_state
  = (SysExit 2,
     logged init_state
            (error_lines "Error signing kernel module: nvidia.ko" 2
                         "Unable to sign a kernel module"))
  /\ @handleError unit "no such code" 4 init_state
     = (Raise IndexError,
        logged init_state [ __title__ ++ " Error: " ++ "no such code"; "" ]).
Proof.
  split.
  - destruct (proj1 (handleError_never_returns
                       unit "Error signing kernel module: nvidia.ko" 2 init_state))
      as (d & Hd & Hrun); [lia|].
    rewrite Hrun. injection Hd as <-. reflexivity.
  - apply (proj1 (proj2 (handleError_never_returns unit "no such code" 4 init_state))).
    lia.
Defined.

(** X2.  The two ways to run a command start the same single process and
    leave the same state, and they agree on success:
    [executeCommandWithExitStatus] always returns, and the status it returns
    is 0 whenever [executeCommandWithOutput] returns an output for the same
    command; when the status is 0 the only way [executeCommandWithOutput]
    can fail is on the decoding of the output. *)
Theorem executeCommandWithExitStatus_agrees_with_output :
  forall (host : Host) (commandName : string) (commandArgs : list string) (st : state),
    exists status,
      executeCommandWithExitStatus commandName commandArgs st
      = (Return status, started st [ commandName :: commandArgs ])
      /\ snd (executeCommandWithOutput commandName commandArgs st)
         = started st [ commandName :: commandArgs ]
      /\ (forall text st',
             executeCommandWithOutput commandName commandArgs st = (Return text, st') ->
             status = 0%Z)
      /\ (status = 0%Z ->
          (forall text, fst (executeCommandWithOutput commandName commandArgs st)
                        <> Return text) ->
          fst (executeCommandWithOutput commandName commandArgs st)
          = Raise UnicodeDecodeError).
Proof.
  intros host commandName commandArgs st.
  exists (status_of (run_process (spawned st) (commandName :: commandArgs))).
  rewrite executeCommandWithExitStatus_status, executeCommandWithOutput_result.
  split; [reflexivity|]. split; [reflexivity|].
  destruct (run_process (spawned st) (commandName :: commandArgs))
    as [|status [text|]]; simpl.
  - split; [discriminate|]. discriminate.
  - destruct (status =? 0)%Z eqn:E.
    + apply Z.eqb_eq in E. split; [now intros|].
      intros _ Hneq. now elim (Hneq text).
    + split; [discriminate|]. intros ->. discriminate E.
  - destruct (status =? 0)%Z eqn:E.
    + apply Z.eqb_eq in E. split; [now intros|]. reflexivity.
    + split; [discriminate|]. intros ->. discriminate E.
Qed.

Lemma executeCommandWithExitStatus_agrees_with_output_witness :
  executeCommandWithExitStatus (host := workstation) "uname" [ "-r" ] init_state
  = (Return 0%Z, started init_state [ uname_command ])
  /\ executeCommandWithExitStatus (host := bare) "uname" [ "-r" ] init_state
     = (Return 1%Z, started init_state [ uname_command ]).
Proof.
  split.
  - destruct (executeCommandWithExitStatus_agrees_with_output
                workstation "uname" [ "-r" ] init_state)
      as (status & Hrun & _ & Hzero & _).
    rewrite Hrun. now rewrite (Hzero _ _ eq_refl).
  - destruct (executeCommandWithExitStatus_agrees_with_output
                bare "uname" [ "-r" ] init_state)
      as (status & Hrun & _).
    rewrite Hrun. injection Hrun as <-. reflexivity.
Defined.

(* ================================================================== *)
(** * More on [extractKernelVersionString] *)
(* ================================================================== *)

Lemma but_last_last1 (s : string) : s = Str.but_last s ++ Str.last1 s.
Proof.
  induction s as [|c s IH]; [reflexivity|].
  destruct s as [|d s]; [reflexivity|].
  change (Str.but_last (String c (String d s)))
    with (String c (Str.but_last (String d s))).
  change (Str.last1 (String c (String d s))) with (Str.last1 (String d s)).
  change (String c (String d s)
          = String c (Str.but_last (String d s) ++ Str.last1 (String d s))).
  now f_equal.
Qed.

Lemma all_but_last (p : ascii -> bool) (s : string) :
  Str.all p s = true -> Str.all p (Str.but_last s) = true.
Proof.
  induction s as [|c s IH]; [reflexivity|].
  destruct s as [|d s]; [reflexivity|].
  change (Str.but_last (String c (String d s)))
    with (String c (Str.but_last (String d s))).
  intros H. apply andb_true_iff in H as [Hc Hs].
  change (Str.all p (String c (Str.but_last (String d s))))
    with (p c && Str.all p (Str.but_last (String d s))).
  now rewrite Hc, IH.
Qed.

Lemma scan_after_no_digit (pre s : string) :
  Str.all (fun c => negb (Re.digit c)) pre = true ->
  scan (pre ++ s)
  = match scan s with
    | Some (p, m, q) => Some (pre ++ p, m, q)
    | None => None
    end.
Proof.
  intros Hpre. induction pre as [|c pre IH].
  - simpl append. destruct (scan s) as [[[p m] q]|]; reflexivity.
  - simpl in Hpre. apply andb_true_iff in Hpre as [Hc Hpre].
    apply negb_true_iff in Hc.
    change (String c pre ++ s) with (String c (pre ++ s)).
    cbn [scan match_starts]. rewrite Hc. cbn [andb].
    rewrite (IH Hpre). destruct (scan s) as [[[p m] q]|]; reflexivity.
Qed.

Lemma take_drop_while_append_stop (p : ascii -> bool) (a post : string) :
  Str.starts_with p post = false ->
  Str.take_while p (a ++ post) = Str.take_while p a
  /\ Str.drop_while p (a ++ post) = Str.drop_while p a ++ post.
Proof.
  intros Hpost. induction a as [|c a [IHt IHd]]; simpl.
  - split; [now apply take_while_stuck | now apply drop_while_stuck].
  - destruct (p c); [now rewrite IHt, IHd | now split].
Qed.

Lemma scan_append_stop (a post p m q : string) :
  Str.starts_with version_char post = false ->
  scan a = Some (p, m, q) ->
  scan (a ++ post) = Some (p, m, q ++ post).
Proof.
  intros Hpost. revert p. induction a as [|c a IH]; intros p Hscan.
  - discriminate Hscan.
  - assert (Hstart : match_starts (String c a ++ post) = match_starts (String c a)).
    { simpl. destruct a as [|d a]; simpl; [now rewrite Hpost | reflexivity]. }
    change (String c a ++ post) with (String c (a ++ post)) in *.
    cbn [scan] in *. rewrite Hstart.
    destruct (match_starts (String c a)).
    + injection Hscan as <- <- <-.
      change (String c (a ++ post)) with (String c a ++ post).
      now destruct (take_drop_while_append_stop version_char (String c a) post Hpost)
        as [-> ->].
    + destruct (scan a) as [[[p0 m0] q0]|] eqn:E; [|discriminate Hscan].
      injection Hscan as <- <- <-. now rewrite (IH p0 eq_refl).
Qed.

(** X3.  A token that [extractKernelVersionString] returns starts with a
    digit, holds nothing but digits, [.], [-] and ASCII letters, and stands
    in the line as it is; returning it changes nothing in the state (no
    process is started, nothing is printed). *)
Theorem extractKernelVersionString_token_shape :
  forall (line token : string) (st st' : state),
    extractKernelVersionString line st = (Return token, st') ->
    st' = st
    /\ Str.starts_with Re.digit token = true
    /\ Str.all version_char token = true
    /\ exists pre post, line = pre ++ token ++ post.
Proof.
  intros line token st st'. rewrite extract_scan.
  destruct (scan line) as [[[pre m] post]|] eqn:E; [|discriminate].
  intros H. injection H as <- <-.
  destruct (scan_first_maximal _ _ _ _ E) as (Hline & Hm & _).
  split; [reflexivity|].
  unfold drop_final_separator.
  destruct (last_char m) as [c|]; [destruct (Re.digit c || Re.lower c || Re.upper c)|].
  - split; [|split; [now apply version_like_all | now exists pre, post]].
    destruct m as [|d [|x r]]; try discriminate Hm. simpl in *.
    now apply andb_true_iff in Hm as [Hm _]; apply andb_true_iff in Hm as [Hd _].
  - split; [|split].
    + destruct m as [|d [|x r]]; try discriminate Hm.
      change (Str.but_last (String d (String x r)))
        with (String d (Str.but_last (String x r))).
      simpl in *.
      now apply andb_true_iff in Hm as [Hm _]; apply andb_true_iff in Hm as [Hd _].
    + now apply all_but_last, version_like_all.
    + exists pre, (Str.last1 m ++ post).
      rewrite <- (append_assoc (Str.but_last m) (Str.last1 m) post).
      rewrite <- but_last_last1. exact Hline.
  - split; [|split; [now apply version_like_all | now exists pre, post]].
    destruct m as [|d [|x r]]; try discriminate Hm. simpl in *.
    now apply andb_true_iff in Hm as [Hm _]; apply andb_true_iff in Hm as [Hd _].
Qed.

Lemma extractKernelVersionString_token_shape_witness :
  Str.all version_char "4.9." = true
  /\ exists pre post, "ii  linux-image-4.9.- amd64" = pre ++ "4.9." ++ post.
Proof.
  destruct (extractKernelVersionString_token_shape
              "ii  linux-image-4.9.- amd64" "4.9." init_state init_state eq_refl)
    as (_ & _ & Hall & Hsub).
  split; [exact Hall | exact Hsub].
Defined.

(** X4.  Text without a digit in front of a line does not change what is
    extracted from it: the same token, or the same exit with code 3.  A
    package name such as [kernel-] or [linux-image-] before the version is
    skipped. *)
Theorem extractKernelVersionString_skips_leading_text :
  forall (pre line : string) (st st' : state),
    Str.all (fun c => negb (Re.digit c)) pre = true ->
    fst (extractKernelVersionString (pre ++ line) st)
    = fst (extractKernelVersionString line st').
Proof.
  intros pre line st st' Hpre.
  rewrite !extract_scan, (scan_after_no_digit pre line Hpre).
  destruct (scan line) as [[[p m] q]|]; reflexivity.
Qed.

Lemma extractKernelVersionString_skips_leading_text_witness :
  fst (extractKernelVersionString ("linux-image-" ++ "4.9.0-8-amd64") init_state)
  = Return "4.9.0-8-amd64".
Proof.
  rewrite (extractKernelVersionString_skips_leading_text
             "linux-image-" "4.9.0-8-amd64" init_state init_state eq_refl).
  reflexivity.
Defined.

(** X5.  Text after a line does not change what is extracted from it when
    it holds no digit, [.], [-] or ASCII letter at all; and when the line
    already gives a token, it is enough that the added text does not start
    with one of these characters. *)
Theorem extractKernelVersionString_ignores_trailing_text :
  (forall (line post : string) (st st' : state),
      Str.all (fun c => negb (version_char c)) post = true ->
      fst (extractKernelVersionString (line ++ post) st)
      = fst (extractKernelVersionString line st'))
  /\ (forall (line post token : string) (st st' : state),
         extractKernelVersionString line st = (Return token, st) ->
         Str.starts_with version_char post = false ->
         extractKernelVersionString (line ++ post) st' = (Return token, st')).
Proof.
  split.
  - intros line post st st' Hpost.
    rewrite !extract_scan, (scan_append_blank post Hpost).
    destruct (scan line) as [[[p m] q]|]; reflexivity.
  - intros line post token st st' Hrun Hpost.
    rewrite extract_scan in Hrun. rewrite extract_scan.
    destruct (scan line) as [[[p m] q]|] eqn:E; [|discriminate Hrun].
    rewrite (scan_append_stop _ _ _ _ _ Hpost E).
    now injection Hrun as ->.
Qed.

Lemma extractKernelVersionString_ignores_trailing_text_witness :
  fst (extractKernelVersionString ("5.10.0" ++ String Str.newline "") init_state)
  = Return "5.10.0"
  /\ extractKernelVersionString ("kernel-5.12.1" ++ "_64 (installed 2021)") init_state
     = (Return "5.12.1", init_state).
Proof.
  split.
  - rewrite (proj1 extractKernelVersionString_ignores_trailing_text
                   "5.10.0" (String Str.newline "") init_state init_state eq_refl).
    reflexivity.
  - exact (proj2 extractKernelVersionString_ignores_trailing_text
                 "kernel-5.12.1" "_64 (installed 2021)" "5.12.1" init_state init_state
                 eq_refl eq_refl).
Defined.

(** X6.  A version string of at least two characters that starts with a
    digit, holds only digits, [.], [-] and ASCII letters and ends in a digit
    or a letter is returned as it is.  A text of one character never gives a
    token: the script exits with code 3 on it, also when that character is a
    digit. *)
Theorem extractKernelVersionString_fixed_point :
  (forall (token : string) (c : ascii) (st : state),
      version_like token = true ->
      last_char token = Some c ->
      Re.digit c || Re.lower c || Re.upper c = true ->
      extractKernelVersionString token st = (Return token, st))
  /\ (forall (c : ascii) (st : state),
         fst (extractKernelVersionString (String c "") st) = SysExit 3).
Proof.
  split.
  - intros token c st Hlike Hlast Halnum.
    rewrite extract_scan.
    assert (Hscan : scan token = Some ("", token, "")).
    { apply first_maximal_scan. repeat split.
      - simpl. now rewrite append_nil_r.
      - exact Hlike.
      - intros. simpl. lia. }
    rewrite Hscan. unfold drop_final_separator. now rewrite Hlast, Halnum.
  - intros c st. rewrite extract_scan. cbn [scan match_starts Str.starts_with].
    now rewrite andb_false_r.
Qed.

Lemma extractKernelVersionString_fixed_point_witness :
  extractKernelVersionString "4.7.2-201.fc24.x86" init_state
  = (Return "4.7.2-201.fc24.x86", init_state).
Proof.
  exact (proj1 extractKernelVersionString_fixed_point
               "4.7.2-201.fc24.x86" "6"%char init_state eq_refl eq_refl eq_refl).
Defined.

(* ================================================================== *)
(** * More on [compareKernels] and [getNewKernels] *)
(* ================================================================== *)

Lemma getNewKernels_is_filter {pkg : PkgResources} (currentKernel : string)
      (installedKernels : list string) :
  getNewKernels currentKernel installedKernels
  = filter (fun k => (compareKernels k currentKernel =? 1)%Z) installedKernels.
Proof. unfold getNewKernels. now rewrite getNewKernels_loop. Qed.

Lemma filter_filter_implied {A} (f g : A -> bool) (xs : list A) :
  (forall x, f x = true -> g x = true) ->
  filter f (filter g xs) = filter f xs.
Proof.
  intros Hfg. induction xs as [|x xs IH]; [reflexivity|]. simpl.
  destruct (g x) eqn:Hg; simpl.
  - now rewrite IH.
  - destruct (f x) eqn:Hf; [|exact IH].
    rewrite (Hfg x Hf) in Hg. discriminate Hg.
Qed.

Lemma count_occ_filter_kept {A} (dec : forall x y : A, {x = y} + {x <> y})
      (f : A -> bool) (xs : list A) (a : A) :
  f a = true -> count_occ dec (filter f xs) a = count_occ dec xs a.
Proof.
  intros Ha. induction xs as [|x xs IH]; [reflexivity|]. simpl.
  destruct (dec x a) as [->|Hne].
  - rewrite Ha. simpl. destruct (dec a a); [now rewrite IH | contradiction].
  - destruct (f x); [|exact IH].
    simpl. destruct (dec x a); [contradiction | exact IH].
Qed.

(** X7.  Over versions that [pkg_resources] orders strictly and totally,
    swapping the two kernels negates the answer of [compareKernels], and two
    kernels that compare equal give the same answer against any third. *)
Theorem compareKernels_antisymmetric :
  forall (pkg : PkgResources),
    PkgResourcesOrder pkg ->
    (forall a b, compareKernels b a = (- compareKernels a b)%Z)
    /\ (forall a a' b,
           compareKernels a a' = 0%Z ->
           compareKernels a b = compareKernels a' b
           /\ compareKernels b a = compareKernels b a').
Proof.
  intros pkg order. split.
  - intros a b. destruct (compareKernels_cases a b) as [H|[H|H]]; rewrite H.
    + apply compareKernels_less. now apply compareKernels_greater.
    + apply compareKernels_greater. now apply compareKernels_less.
    + apply compareKernels_equal. symmetry. now apply compareKernels_equal.
  - intros a a' b H. apply compareKernels_equal in H.
    unfold compareKernels. now rewrite H.
Qed.

Lemma compareKernels_antisymmetric_witness :
  compareKernels (pkg := Ranked.pkg) "5.9.9" "5.10.0" = (-1)%Z
  /\ compareKernels (pkg := Ranked.pkg) "5.010.0" "5.12.1"
     = compareKernels (pkg := Ranked.pkg) "5.10.0" "5.12.1".
Proof.
  destruct (compareKernels_antisymmetric Ranked.pkg ranked_order) as [Hswap Hsame].
  split.
  - rewrite (Hswap "5.10.0" "5.9.9"). reflexivity.
  - exact (proj1 (Hsame "5.010.0" "5.10.0" "5.12.1" eq_refl)).
Defined.

(** X8.  Over versions that [pkg_resources] orders strictly and totally,
    [getNewKernels] never selects the current kernel itself, however often
    it is listed.  Selecting against a newer current kernel selects from
    what was selected against an older one, so a newer current kernel can
    only shrink the selection; and current kernels that compare equal give
    the same selection. *)
Theorem getNewKernels_against_current :
  forall (pkg : PkgResources),
    PkgResourcesOrder pkg ->
    (forall currentKernel installedKernels,
        ~ In currentKernel (getNewKernels currentKernel installedKernels))
    /\ (forall older newer installedKernels,
           compareKernels newer older = 1%Z ->
           getNewKernels newer (getNewKernels older installedKernels)
           = getNewKernels newer installedKernels)
    /\ (forall current current' installedKernels,
           compareKernels current current' = 0%Z ->
           getNewKernels current installedKernels
           = getNewKernels current' installedKernels).
Proof.
  intros pkg order. split; [|split].
  - intros c L Hin. rewrite getNewKernels_is_filter in Hin.
    apply filter_In in Hin as [_ Hc]. apply Z.eqb_eq in Hc.
    assert (H0 : compareKernels c c = 0%Z) by now apply compareKernels_equal.
    rewrite H0 in Hc. discriminate Hc.
  - intros older newer L Hnewer. rewrite !getNewKernels_is_filter.
    apply filter_filter_implied. intros k Hk.
    apply Z.eqb_eq in Hk. apply Z.eqb_eq.
    apply compareKernels_greater in Hk, Hnewer. apply compareKernels_greater.
    exact (lt_trans _ _ _ Hnewer Hk).
  - intros c c' L Hc. rewrite !getNewKernels_is_filter.
    apply compareKernels_equal in Hc.
    apply filter_ext. intros k. unfold compareKernels. now rewrite Hc.
Qed.

Lemma getNewKernels_against_current_witness :
  ~ In "5.10.0" (getNewKernels (pkg := Ranked.pkg) "5.10.0"
                               [ "5.10.0"; "5.12.1"; "5.10.0" ])
  /\ getNewKernels (pkg := Ranked.pkg) "5.12.1"
                   (getNewKernels (pkg := Ranked.pkg) "5.10.0"
                                  [ "5.9.9"; "5.12.1"; "5.13.0" ])
     = getNewKernels (pkg := Ranked.pkg) "5.12.1" [ "5.9.9"; "5.12.1"; "5.13.0" ].
Proof.
  destruct (getNewKernels_against_current Ranked.pkg ranked_order)
    as (Hself & Hshrink & _).
  split; [apply Hself | apply Hshrink; reflexivity].
Defined.

(** X9.  Whatever the order of versions is, [getNewKernels] works kernel by
    kernel: the selection from two lists put end to end is the two
    selections put end to end, selecting twice selects nothing less, the
    selection is never longer than the list, and a kernel that is selected
    is there as many times as it is listed (nothing is deduplicated). *)
Theorem getNewKernels_kernel_by_kernel :
  forall (pkg : PkgResources) (currentKernel : string),
    (forall installed installed',
        getNewKernels currentKernel (installed ++ installed')%list
        = (getNewKernels currentKernel installed
           ++ getNewKernels currentKernel installed')%list)
    /\ (forall installed,
           getNewKernels currentKernel (getNewKernels currentKernel installed)
           = getNewKernels currentKernel installed)
    /\ (forall installed,
           (List.length (getNewKernels currentKernel installed)
            <= List.length installed)%nat)
    /\ (forall installed k,
           compareKernels k currentKernel = 1%Z ->
           count_occ string_dec (getNewKernels currentKernel installed) k
           = count_occ string_dec installed k).
Proof.
  intros pkg c. split; [|split; [|split]].
  - intros L L'. rewrite !getNewKernels_is_filter. apply filter_app.
  - intros L. rewrite !getNewKernels_is_filter.
    now apply filter_filter_implied.
  - intros L. rewrite getNewKernels_is_filter. apply filter_length_le.
  - intros L k Hk. rewrite getNewKernels_is_filter.
    apply count_occ_filter_kept. now apply Z.eqb_eq.
Qed.

Lemma getNewKernels_kernel_by_kernel_witness :
  count_occ string_dec
            (getNewKernels (pkg := Release.pkg) "5.10.0"
                           [ "5.12.1"; "5.10.0"; "5.12.1" ])
            "5.12.1"
  = 2%nat.
Proof.
  rewrite (proj2 (proj2 (proj2 (getNewKernels_kernel_by_kernel Release.pkg "5.10.0")))
                 [ "5.12.1"; "5.10.0"; "5.12.1" ] "5.12.1" eq_refl).
  reflexivity.
Defined.

(* ================================================================== *)
(** * More on [signKernel] and [signNewKernels] *)
(* ================================================================== *)

Lemma started_nil (st : state) : started st [] = st.
Proof. unfold started. rewrite app_nil_r. now destruct st. Qed.

Lemma for_each_app {A} (xs ys : list A) (body : A -> M unit) (st : state) :
  for_each (xs ++ ys) body st = (for_each xs body ;; for_each ys body) st.
Proof.
  revert st. induction xs as [|x xs IH]; intros st; [reflexivity|].
  cbn [app for_each]. unfold bind.
  destruct (body x st) as [[[]|c|e] st1]; [|reflexivity..].
  rewrite IH. reflexivity.
Qed.

(** The loop over the modules ends in one of two ways. *)
Lemma sign_loop_cases {host : Host} (kernel privateKeyPath publicKeyPath : string)
      (names : list string) :
  forall st,
    for_each names (sign_module kernel privateKeyPath publicKeyPath) st
    = (Return tt,
       started st (map (sign_command kernel privateKeyPath publicKeyPath) names))
    \/ exists i module,
        nth_error names i = Some module
        /\ for_each names (sign_module kernel privateKeyPath publicKeyPath) st
           = (SysExit 2,
              logged
                (started st
                   (firstn (S i)
                      (map (sign_command kernel privateKeyPath publicKeyPath) names)))
                (error_lines ("Error signing kernel module: " ++ module) 2
                             "Unable to sign a kernel module")).
Proof.
  induction names as [|name names IH]; intros st.
  - left. simpl. now rewrite started_nil.
  - cbn [for_each]. unfold bind. rewrite sign_one.
    destruct (status_of _ =? 0)%Z.
    + destruct (IH (started st [ sign_command kernel privateKeyPath publicKeyPath name ]))
        as [Hall|(i & module & Hnth & Hstop)].
      * left. rewrite Hall. now rewrite started_started.
      * right. exists (S i), module. split; [exact Hnth|].
        rewrite Hstop. now rewrite started_started.
    + right. exists 0%nat, name. split; reflexivity.
Qed.

Lemma signKernel_cases {host : Host} (kernel privateKeyPath publicKeyPath : string)
      (st : state) :
  signKernel kernel privateKeyPath publicKeyPath st
  = (Return tt,
     started st (map (sign_command kernel privateKeyPath publicKeyPath) MODULE_NAMES))
  \/ exists i module,
      nth_error MODULE_NAMES i = Some module
      /\ signKernel kernel privateKeyPath publicKeyPath st
         = (SysExit 2,
            logged
              (started st
                 (firstn (S i)
                    (map (sign_command kernel privateKeyPath publicKeyPath)
                         MODULE_NAMES)))
              (error_lines ("Error signing kernel module: " ++ module) 2
                           "Unable to sign a kernel module")).
Proof. exact (sign_loop_cases kernel privateKeyPath publicKeyPath MODULE_NAMES st). Qed.

Lemma signNewKernels_outcome {host : Host} (privateKeyPath publicKeyPath : string)
      (kernels : list string) :
  forall st,
    fst (signNewKernels kernels privateKeyPath publicKeyPath st) = Return tt
    \/ fst (signNewKernels kernels privateKeyPath publicKeyPath st) = SysExit 2.
Proof.
  induction kernels as [|kernel kernels IH]; intros st; [now left|].
  unfold signNewKernels. cbn [for_each]. unfold bind.
  destruct (signKernel_cases kernel privateKeyPath publicKeyPath st)
    as [->|(i & module & _ & ->)].
  - apply IH.
  - now right.
Qed.

(** X10.  [signKernel] ends in one of two ways only: it returns after the
    four signing processes and has printed nothing, or it leaves the
    interpreter with exit code 2 after the error that names the module at
    which it stopped.  It never raises an exception, and the processes it
    has started are the first ones of the four commands, one at least. *)
Theorem signKernel_returns_or_exits_2 :
  forall (host : Host) (kernel privateKeyPath publicKeyPath : string) (st : state),
    let cmds := map (sign_command kernel privateKeyPath publicKeyPath) MODULE_NAMES in
    (signKernel kernel privateKeyPath publicKeyPath st = (Return tt, started st cmds)
     \/ exists i module,
         nth_error MODULE_NAMES i = Some module
         /\ signKernel kernel privateKeyPath publicKeyPath st
            = (SysExit 2,
               logged (started st (firstn (S i) cmds))
                      (error_lines ("Error signing kernel module: " ++ module) 2
                                   "Unable to sign a kernel module")))
    /\ exists n,
        (1 <= n <= 4)%nat
        /\ spawned (snd (signKernel kernel privateKeyPath publicKeyPath st))
           = (spawned st ++ firstn n cmds)%list.
Proof.
  intros host kernel privateKeyPath publicKeyPath st cmds.
  pose proof (signKernel_cases kernel privateKeyPath publicKeyPath st) as Hcases.
  split; [exact Hcases|].
  destruct Hcases as [->|(i & module & Hnth & ->)].
  - exists 4%nat. split; [lia | reflexivity].
  - exists (S i). split; [|reflexivity].
    assert (Hi : (i < List.length MODULE_NAMES)%nat).
    { apply nth_error_Some. rewrite Hnth. discriminate. }
    simpl in Hi. lia.
Qed.

(** X11.  When the signing binary of a kernel cannot be started (the kernel
    has no build tree), [signKernel] takes this as a failed signature: it
    leaves the interpreter with exit code 2 after this one attempt, with the
    error that names the first module, [nvidia-drm.ko]. *)
Theorem signKernel_without_signing_binary :
  forall (host : Host) (kernel privateKeyPath publicKeyPath : string) (st : state),
    run_process (spawned st)
                (sign_command kernel privateKeyPath publicKeyPath "nvidia-drm.ko")
    = StartFailed ->
    signKernel kernel privateKeyPath publicKeyPath st
    = (SysExit 2,
       logged (started st [ sign_command kernel privateKeyPath publicKeyPath
                                         "nvidia-drm.ko" ])
              (error_lines "Error signing kernel module: nvidia-drm.ko" 2
                           "Unable to sign a kernel module")).
Proof.
  intros host kernel privateKeyPath publicKeyPath st Hrun.
  unfold signKernel.
  apply (sign_loop_stop kernel privateKeyPath publicKeyPath MODULE_NAMES
                        st 0%nat "nvidia-drm.ko" eq_refl).
  - intros j Hj. lia.
  - simpl. rewrite app_nil_r.
    change [ SIGN_BINARY_PATH kernel; "sha256"; privateKeyPath; publicKeyPath;
             MODULES_PATH kernel ++ "nvidia-drm.ko" ]
      with (sign_command kernel privateKeyPath publicKeyPath "nvidia-drm.ko").
    rewrite Hrun. discriminate.
Qed.

Lemma signKernel_without_signing_binary_witness :
  signKernel (host := bare) "5.12.1" "private.key" "public.der" init_state
  = (SysExit 2,
     logged (started init_state
                     [ sign_command "5.12.1" "private.key" "public.der" "nvidia-drm.ko" ])
            (error_lines "Error signing kernel module: nvidia-drm.ko" 2
                         "Unable to sign a kernel module")).
Proof.
  exact (signKernel_without_signing_binary
           bare "5.12.1" "private.key" "public.der" init_state eq_refl).
Defined.

(** X12.  [signNewKernels] signs kernel after kernel and stops at the first
    kernel that fails: when the kernels of a first list are all signed, the
    call goes on with the kernels after them from the state reached; when
    the call on the first list leaves the interpreter, the kernels after
    them are never tried and no further process is started.  The call
    itself returns or exits with code 2, nothing else. *)
Theorem signNewKernels_stops_at_first_failure :
  forall (host : Host) (privateKeyPath publicKeyPath : string)
         (kernels later : list string) (st : state),
    (forall st1,
        signNewKernels kernels privateKeyPath publicKeyPath st = (Return tt, st1) ->
        signNewKernels (kernels ++ later) privateKeyPath publicKeyPath st
        = signNewKernels later privateKeyPath publicKeyPath st1)
    /\ (forall code st1,
           signNewKernels kernels privateKeyPath publicKeyPath st = (SysExit code, st1) ->
           signNewKernels (kernels ++ later) privateKeyPath publicKeyPath st
           = (SysExit code, st1))
    /\ (fst (signNewKernels kernels privateKeyPath publicKeyPath st) = Return tt
        \/ fst (signNewKernels kernels privateKeyPath publicKeyPath st) = SysExit 2).
Proof.
  intros host privateKeyPath publicKeyPath kernels later st.
  split; [|split].
  - intros st1 Hrun. unfold signNewKernels in *.
    rewrite for_each_app. unfold bind. now rewrite Hrun.
  - intros code st1 Hrun. unfold signNewKernels in *.
    rewrite for_each_app. unfold bind. now rewrite Hrun.
  - apply signNewKernels_outcome.
Qed.

Lemma signNewKernels_stops_at_first_failure_witness :
  signNewKernels (host := debian) ([ "4.8.0-1" ] ++ [ "4.9.0-1" ])
                 "private.key" "public.der" init_state
  = (SysExit 2,
     logged (started init_state
                     [ sign_command "4.8.0-1" "private.key" "public.der" "nvidia-drm.ko";
                       sign_command "4.8.0-1" "private.key" "public.der" "nvidia.ko" ])
            (error_lines "Error signing kernel module: nvidia.ko" 2
                         "Unable to sign a kernel module")).
Proof.
  apply (proj1 (proj2 (signNewKernels_stops_at_first_failure
                         debian "private.key" "public.der"
                         [ "4.8.0-1" ] [ "4.9.0-1" ] init_state))).
  vm_compute. reflexivity.
Defined.

Lemma signKernel_all_sign {host : Host} (kernel privateKeyPath publicKeyPath : string)
      (st : state) :
  (forall h module,
      In module MODULE_NAMES ->
      status_of (run_process h (sign_command kernel privateKeyPath publicKeyPath module))
      = 0%Z) ->
  signKernel kernel privateKeyPath publicKeyPath st
  = (Return tt,
     started st (map (sign_command kernel privateKeyPath publicKeyPath) MODULE_NAMES)).
Proof.
  intros Hsign. unfold signKernel. apply sign_loop_all.
  intros i Hi.
  destruct i as [|[|[|[|i]]]]; [| | | |simpl in Hi; lia];
    apply Hsign; simpl; tauto.
Qed.

Lemma signNewKernels_all_sign {host : Host} (privateKeyPath publicKeyPath : string)
      (kernels : list string) :
  (forall h kernel module,
      In kernel kernels -> In module MODULE_NAMES ->
      status_of (run_process h (sign_command kernel privateKeyPath publicKeyPath module))
      = 0%Z) ->
  forall st,
    signNewKernels kernels privateKeyPath publicKeyPath st
    = (Return tt, started st (sign_commands privateKeyPath publicKeyPath kernels)).
Proof.
  induction kernels as [|kernel kernels IH]; intros Hsign st.
  - simpl. now rewrite started_nil.
  - unfold signNewKernels. cbn [for_each]. unfold bind.
    rewrite signKernel_all_sign
      by (intros h module Hm; apply Hsign; [now left | exact Hm]).
    fold (signNewKernels kernels privateKeyPath publicKeyPath).
    rewrite IH by (intros h k module Hk Hm; apply Hsign; [now right | exact Hm]).
    now rewrite started_started.
Qed.

Lemma length_sign_commands (privateKeyPath publicKeyPath : string)
      (kernels : list string) :
  List.length (sign_commands privateKeyPath publicKeyPath kernels)
  = (4 * List.length kernels)%nat.
Proof.
  induction kernels as [|kernel kernels IH]; [reflexivity|].
  unfold sign_commands in *. cbn [flat_map]. rewrite length_app, IH. simpl. lia.
Qed.

(** X13.  When the signing binary signs every module of every kernel of the
    list, [signNewKernels] returns after it has started four processes for
    each kernel and nothing else: the four commands of the first kernel in
    the order of the modules, then those of the second kernel, and so on. *)
Theorem signNewKernels_signs_every_kernel :
  forall (host : Host) (privateKeyPath publicKeyPath : string)
         (kernels : list string) (st : state),
    (forall h kernel module,
        In kernel kernels -> In module MODULE_NAMES ->
        status_of (run_process h (sign_command kernel privateKeyPath publicKeyPath module))
        = 0%Z) ->
    signNewKernels kernels privateKeyPath publicKeyPath st
    = (Return tt, started st (sign_commands privateKeyPath publicKeyPath kernels))
    /\ List.length (sign_commands privateKeyPath publicKeyPath kernels)
       = (4 * List.length kernels)%nat.
Proof.
  intros host privateKeyPath publicKeyPath kernels st Hsign.
  split; [now apply signNewKernels_all_sign | apply length_sign_commands].
Qed.

Lemma signNewKernels_signs_every_kernel_witness :
  signNewKernels (host := workstation) [ "5.12.1"; "5.13.0" ]
                 "private.key" "public.der" init_state
  = (Return tt,
     started init_state
             (sign_commands "private.key" "public.der" [ "5.12.1"; "5.13.0" ]))
  /\ List.length (sign_commands "private.key" "public.der" [ "5.12.1"; "5.13.0" ])
     = 8%nat.
Proof.
  apply (signNewKernels_signs_every_kernel
           workstation "private.key" "public.der" [ "5.12.1"; "5.13.0" ] init_state).
  intros h kernel module _ _. reflexivity.
Defined.

(* ================================================================== *)
(** * More on [getPackageManager], [getCurrentKernel], [getInstalledKernels] *)
(* ================================================================== *)

Lemma getPackageManager_unfolded {host : Host} (st : state) :
  getPackageManager st
  = if (status_of (run_process (spawned st) (probe "rpm")) =? 0)%Z
    then (Return "rpm", started st (firstn 1 probes))
    else if (status_of (run_process (spawned st ++ firstn 1 probes) (probe "dpkg")) =? 0)%Z
    then (Return "dpkg", started st (firstn 2 probes))
    else if (status_of (run_process (spawned st ++ firstn 2 probes) (probe "pacman"))
             =? 0)%Z
    then (Return "pacman", started st probes)
    else (SysExit 1,
          logged (started st probes)
                 (error_lines "Package manager could not be determined" 1
                              "Package manager not found")).
Proof.
  unfold getPackageManager, bind.
  rewrite executeCommandWithExitStatus_status. fold (probe "rpm").
  destruct (status_of (run_process (spawned st) (probe "rpm")) =? 0)%Z; [reflexivity|].
  rewrite executeCommandWithExitStatus_status. fold (probe "dpkg").
  change (spawned (started st [ probe "rpm" ])) with (spawned st ++ firstn 1 probes)%list.
  destruct (status_of (run_process (spawned st ++ firstn 1 probes) (probe "dpkg")) =? 0)%Z;
    [now rewrite started_started|].
  rewrite executeCommandWithExitStatus_status, !started_started. fold (probe "pacman").
  change (spawned (started st ([ probe "rpm" ] ++ [ probe "dpkg" ])))
    with (spawned st ++ firstn 2 probes)%list.
  destruct (status_of (run_process (spawned st ++ firstn 2 probes) (probe "pacman"))
            =? 0)%Z; [reflexivity|].
  now rewrite (handleError_exits _ "Package manager not found").
Qed.

Lemma getPackageManager_cases {host : Host} (st : state) :
  (exists n packageManager,
      nth_error [ "rpm"; "dpkg"; "pacman" ] n = Some packageManager
      /\ getPackageManager st = (Return packageManager, started st (firstn (S n) probes)))
  \/ getPackageManager st
     = (SysExit 1,
        logged (started st probes)
               (error_lines "Package manager could not be determined" 1
                            "Package manager not found")).
Proof.
  rewrite getPackageManager_unfolded.
  destruct (_ =? 0)%Z; [left; now exists 0%nat, "rpm"|].
  destruct (_ =? 0)%Z; [left; now exists 1%nat, "dpkg"|].
  destruct (_ =? 0)%Z; [left; now exists 2%nat, "pacman"|].
  now right.
Qed.

Lemma listing_command_known (n : nat) (packageManager : string) :
  nth_error [ "rpm"; "dpkg"; "pacman" ] n = Some packageManager ->
  exists commandName commandArgs,
    listing_command packageManager = Some (commandName :: commandArgs).
Proof.
  destruct n as [|[|[|n]]]; simpl; intros H; try discriminate H.
  - injection H as <-. now eexists _, _.
  - injection H as <-. now eexists _, _.
  - injection H as <-. now eexists _, _.
  - destruct n; discriminate H.
Qed.

(** X14.  [getPackageManager] never raises an exception and returns nothing
    but ["rpm"], ["dpkg"] or ["pacman"]: a name for which
    [getInstalledKernels] has a listing command.  When it returns, the
    probe of the package manager it returns is the last process started,
    the probes before it were made in the fixed order, and nothing was
    printed; otherwise the three probes were made and the script exits with
    code 1. *)
Theorem getPackageManager_returns_a_known_manager :
  forall (host : Host) (st : state),
    (exists n packageManager,
        nth_error [ "rpm"; "dpkg"; "pacman" ] n = Some packageManager
        /\ getPackageManager st
           = (Return packageManager, started st (firstn (S n) probes))
        /\ nth_error probes n = Some (probe packageManager)
        /\ listing_command packageManager <> None)
    \/ (fst (getPackageManager st) = SysExit 1
        /\ spawned (snd (getPackageManager st)) = (spawned st ++ probes)%list).
Proof.
  intros host st.
  destruct (getPackageManager_cases st) as [(n & pm & Hnth & Hrun)|Hexit].
  - left. exists n, pm. split; [exact Hnth|]. split; [exact Hrun|]. split.
    + destruct n as [|[|[|n]]]; simpl in *; try (injection Hnth as <-; reflexivity).
      destruct n; discriminate Hnth.
    + destruct (listing_command_known n pm Hnth) as (name & args & ->). discriminate.
  - right. now rewrite Hexit.
Qed.

Lemma getInstalledKernels_unknown {host : Host} (packageManager : string) (st : state) :
  listing_command packageManager = None ->
  getInstalledKernels packageManager st = (Raise UnboundLocalError, st).
Proof.
  unfold listing_command, getInstalledKernels.
  destruct (packageManager =? "rpm"); [discriminate|].
  destruct (packageManager =? "dpkg"); [discriminate|].
  destruct (packageManager =? "pacman"); [discriminate|].
  reflexivity.
Qed.

(** X15.  With a package manager that is not exactly ["rpm"], ["dpkg"] or
    ["pacman"] (the comparison is on the spelling, case included),
    [getInstalledKernels] starts no process and prints nothing: the variable
    that should hold the output was never bound, and the call ends in
    [UnboundLocalError]. *)
Theorem getInstalledKernels_unknown_package_manager :
  forall (host : Host) (packageManager : string) (st : state),
    packageManager <> "rpm" -> packageManager <> "dpkg" -> packageManager <> "pacman" ->
    getInstalledKernels packageManager st = (Raise UnboundLocalError, st).
Proof.
  intros host packageManager st Hrpm Hdpkg Hpacman.
  apply getInstalledKernels_unknown. unfold listing_command.
  apply String.eqb_neq in Hrpm, Hdpkg, Hpacman.
  now rewrite Hrpm, Hdpkg, Hpacman.
Qed.

Lemma getInstalledKernels_unknown_package_manager_witness :
  getInstalledKernels (host := fedora) "RPM" init_state
  = (Raise UnboundLocalError, init_state)
  /\ getInstalledKernels (host := fedora) "zypper" init_state
     = (Raise UnboundLocalError, init_state).
Proof.
  split.
  - apply (getInstalledKernels_unknown_package_manager fedora "RPM" init_state);
      discriminate.
  - apply (getInstalledKernels_unknown_package_manager fedora "zypper" init_state);
      discriminate.
Defined.

Lemma getInstalledKernels_output {host : Host} (packageManager commandName : string)
      (commandArgs : list string) (st : state) :
  listing_command packageManager = Some (commandName :: commandArgs) ->
  getInstalledKernels packageManager st
  = match run_process (spawned st) (commandName :: commandArgs) with
    | StartFailed => (Raise OSError, started st [ commandName :: commandArgs ])
    | Exited status stdout =>
        if (status =? 0)%Z
        then match stdout with
             | Some output =>
                 for_fold (Str.split_lines (Str.rstrip output)) [] collect_version
                          (started st [ commandName :: commandArgs ])
             | None => (Raise UnicodeDecodeError, started st [ commandName :: commandArgs ])
             end
        else (Raise CalledProcessError, started st [ commandName :: commandArgs ])
    end.
Proof.
  intros Hcmd. rewrite (getInstalledKernels_run _ _ _ _ Hcmd).
  unfold bind at 1. rewrite executeCommandWithOutput_result.
  destruct (run_process (spawned st) (commandName :: commandArgs))
    as [|status [output|]]; [reflexivity | |];
    destruct (status =? 0)%Z; reflexivity.
Qed.

Lemma listing_command_nonempty (packageManager : string) (cmd : argv) :
  listing_command packageManager = Some cmd ->
  exists commandName commandArgs, cmd = commandName :: commandArgs.
Proof.
  unfold listing_command.
  destruct (packageManager =? "rpm"); [intros [= <-]; now eexists _, _|].
  destruct (packageManager =? "dpkg"); [intros [= <-]; now eexists _, _|].
  destruct (packageManager =? "pacman"); [intros [= <-]; now eexists _, _|].
  discriminate.
Qed.

(** X16.  A listing command that fails is not an extraction failure: when
    the command cannot be started [getInstalledKernels] ends in [OSError],
    when it exits with a status other than 0 in [CalledProcessError], and
    when its output is not UTF-8 in [UnicodeDecodeError].  In the three
    cases nothing is printed, no line is read, and the script ends with the
    exit status 1 of an uncaught exception. *)
Theorem getInstalledKernels_listing_fails :
  forall (host : Host) (packageManager : string) (cmd : argv) (st : state),
    listing_command packageManager = Some cmd ->
    (run_process (spawned st) cmd = StartFailed ->
     getInstalledKernels packageManager st = (Raise OSError, started st [ cmd ]))
    /\ (forall status stdout,
           run_process (spawned st) cmd = Exited status stdout -> status <> 0%Z ->
           getInstalledKernels packageManager st
           = (Raise CalledProcessError, started st [ cmd ]))
    /\ (run_process (spawned st) cmd = Exited 0 None ->
        getInstalledKernels packageManager st
        = (Raise UnicodeDecodeError, started st [ cmd ]))
    /\ (forall e st',
           getInstalledKernels packageManager st = (Raise e, st') ->
           process_error e /\ st' = started st [ cmd ]
           /\ exit_status (fst (getInstalledKernels packageManager st)) = 1%Z).
Proof.
  intros host packageManager cmd st Hcmd.
  destruct (listing_command_nonempty _ _ Hcmd) as (name & args & ->).
  rewrite (getInstalledKernels_output _ _ _ _ Hcmd).
  split; [now intros ->|]. split; [|split; [now intros ->|]].
  - intros status stdout -> Hstatus. apply Z.eqb_neq in Hstatus. now rewrite Hstatus.
  - intros e st'.
    destruct (run_process (spawned st) (name :: args)) as [|status [output|]].
    + intros [= <- <-]. unfold process_error. tauto.
    + destruct (status =? 0)%Z.
      * intros Hrun. exfalso.
        destruct (for_fold _ _ _ _) as [[tokens|c|e'] st''] eqn:E; try discriminate Hrun.
        clear Hrun. revert E.
        generalize (Str.split_lines (Str.rstrip output)) as lines.
        generalize (started st [ name :: args ]) as s0.
        generalize (@nil string) as acc.
        intros acc s0 lines. revert acc s0.
        induction lines as [|line lines IH]; intros acc s0; [discriminate|].
        cbn [for_fold]. unfold bind at 1. unfold collect_version at 1. unfold bind at 1.
        rewrite extract_scan. destruct (scan line) as [[[p m] q]|]; [|discriminate].
        unfold ret at 1. apply IH.
      * intros [= <- <-]. unfold process_error. tauto.
    + destruct (status =? 0)%Z; intros [= <- <-]; unfold process_error; tauto.
Qed.

Lemma getInstalledKernels_listing_fails_witness :
  getInstalledKernels (host := debian) "dpkg" init_state
  = (Raise OSError,
     started init_state [ [ "dpkg"; "--list"; "|"; "grep"; "linux-image" ] ]).
Proof.
  exact (proj1 (getInstalledKernels_listing_fails
                  debian "dpkg" [ "dpkg"; "--list"; "|"; "grep"; "linux-image" ]
                  init_state eq_refl)
               eq_refl).
Defined.

Lemma split_on_nonempty (sep : ascii -> bool) (s : string) : Str.split_on sep s <> [].
Proof.
  destruct s as [|c s]; simpl; [discriminate|].
  destruct (sep c); [discriminate|].
  destruct (Str.split_on sep s); discriminate.
Qed.

Lemma empty_line_has_no_version : ~ contains_version_like "".
Proof. intros H. apply contains_scan in H. now apply H. Qed.

(** X17.  [getInstalledKernels] never returns an empty list.  When the
    listing command succeeds with an output that is empty or all
    whitespace, the output still splits into one empty line, no token can be
    extracted from it, and the script exits with code 3: a package manager
    that lists no kernel ends the run as an extraction failure. *)
Theorem getInstalledKernels_never_empty :
  (forall (host : Host) (packageManager : string) (st st' : state) (tokens : list string),
      getInstalledKernels packageManager st = (Return tokens, st') -> tokens <> [])
  /\ (forall (host : Host) (packageManager : string) (cmd : argv) (st : state)
             (output : string),
         listing_command packageManager = Some cmd ->
         run_process (spawned st) cmd = Exited 0 (Some output) ->
         Str.rstrip output = "" ->
         getInstalledKernels packageManager st
         = (SysExit 3,
            logged (started st [ cmd ])
                   (error_lines (extraction_message "") 3
                                "Unable to extract kernel version string"))).
Proof.
  split.
  - intros host packageManager st st' tokens Hrun.
    destruct (listing_command packageManager) as [cmd|] eqn:Hcmd.
    + destruct (listing_command_nonempty _ _ Hcmd) as (name & args & ->).
      rewrite (getInstalledKernels_output _ _ _ _ Hcmd) in Hrun.
      destruct (run_process (spawned st) (name :: args)) as [|status [output|]];
        try discriminate Hrun;
        destruct (status =? 0)%Z; try discriminate Hrun.
      destruct (collect_returns _ _ _ _ _ Hrun) as (tokens' & -> & Hall).
      intros Hnil. simpl in Hnil. subst tokens'.
      inversion Hall as [Hlines|]. symmetry in Hlines.
      now apply split_on_nonempty in Hlines.
    + rewrite (getInstalledKernels_unknown _ _ Hcmd) in Hrun. discriminate Hrun.
  - intros host packageManager cmd st output Hcmd Hrun Hblank.
    destruct (listing_command_nonempty _ _ Hcmd) as (name & args & ->).
    rewrite (getInstalledKernels_output _ _ _ _ Hcmd), Hrun, Hblank.
    cbn [Z.eqb].
    exact (collect_stop [] [] "" [] (Forall2_nil _) empty_line_has_no_version
                        [] (started st [ name :: args ])).
Qed.

Lemma getInstalledKernels_never_empty_witness :
  getInstalledKernels (host := empty_arch) "pacman" init_state
  = (SysExit 3,
     logged (started init_state [ [ "pacman"; "-Q"; "|"; "grep"; "linux" ] ])
            (error_lines (extraction_message "") 3
                         "Unable to extract kernel version string")).
Proof.
  exact (proj2 getInstalledKernels_never_empty
               empty_arch "pacman" [ "pacman"; "-Q"; "|"; "grep"; "linux" ] init_state
               (String Str.newline "") eq_refl eq_refl eq_refl).
Defined.

Lemma getCurrentKernel_unfolded {host : Host} (st : state) :
  getCurrentKernel st
  = match run_process (spawned st) uname_command with
    | StartFailed => (Raise OSError, started st [ uname_command ])
    | Exited status stdout =>
        if (status =? 0)%Z
        then match stdout with
             | Some output =>
                 extractKernelVersionString output (started st [ uname_command ])
             | None => (Raise UnicodeDecodeError, started st [ uname_command ])
             end
        else (Raise CalledProcessError, started st [ uname_command ])
    end.
Proof.
  unfold getCurrentKernel, bind. rewrite executeCommandWithOutput_result.
  fold uname_command.
  destruct (run_process (spawned st) uname_command) as [|status [output|]];
    [reflexivity | |]; destruct (status =? 0)%Z; reflexivity.
Qed.

(** X18.  How [getCurrentKernel] fails.  When [uname] cannot be started the
    call ends in [OSError], and when it exits with a status other than 0 in
    [CalledProcessError]; nothing is printed.  When its output holds no
    version the script exits with code 3, and the error message quotes the
    output as it was captured, trailing newline included: the stripped text
    is not the one handed on. *)
Theorem getCurrentKernel_failures :
  forall (host : Host) (st : state),
    (run_process (spawned st) [ "uname"; "-r" ] = StartFailed ->
     getCurrentKernel st = (Raise OSError, started st [ [ "uname"; "-r" ] ]))
    /\ (forall status stdout,
           run_process (spawned st) [ "uname"; "-r" ] = Exited status stdout ->
           status <> 0%Z ->
           getCurrentKernel st = (Raise CalledProcessError, started st [ [ "uname"; "-r" ] ]))
    /\ (forall output,
           run_process (spawned st) [ "uname"; "-r" ] = Exited 0 (Some output) ->
           ~ contains_version_like output ->
           getCurrentKernel st
           = (SysExit 3,
              logged (started st [ [ "uname"; "-r" ] ])
                     [ __title__ ++ " Error: "
                       ++ "Unable to extract version string for kernel line: " ++ output;
                       "";
                       "Exiting with exit code: 3, Unable to extract kernel version string"
                     ])).
Proof.
  intros host st. rewrite getCurrentKernel_unfolded. fold uname_command.
  split; [now intros ->|]. split.
  - intros status stdout -> Hstatus. apply Z.eqb_neq in Hstatus. now rewrite Hstatus.
  - intros output -> Hnone. cbn [Z.eqb]. now rewrite (extract_fails _ _ Hnone).
Qed.

Lemma getCurrentKernel_failures_witness :
  printed (snd (getCurrentKernel (host := empty_arch) init_state))
  = [ "Nvidia Signing Script Error: Unable to extract version string for kernel line: "
      ++ "unknown" ++ String Str.newline "";
      "";
      "Exiting with exit code: 3, Unable to extract kernel version string" ]
  /\ getCurrentKernel (host := bare) init_state
     = (Raise CalledProcessError, started init_state [ [ "uname"; "-r" ] ]).
Proof.
  split.
  - rewrite (proj2 (proj2 (getCurrentKernel_failures empty_arch init_state))
                   (String.concat (String Str.newline "") [ "unknown"; "" ]) eq_refl).
    + reflexivity.
    + intros H. apply contains_scan in H. now apply H.
  - refine (proj1 (proj2 (getCurrentKernel_failures bare init_state))
                  1%Z (Some "4.7.2-201") eq_refl _).
    discriminate.
Defined.

(* ================================================================== *)
(** * More on [main] *)
(* ================================================================== *)

(** [main], stage by stage: each stage runs in the state the one before it
    left, and the first stage that does not return ends the run. *)
Lemma main_unfolded {host : Host} {pkg : PkgResources}
      (privateKeyFile publicKeyFile : string) (st : state) :
  main privateKeyFile publicKeyFile st
  = match getPackageManager (logged st banner) with
    | (Return packageManager, st1) =>
        match getCurrentKernel
                (logged st1 [ "DEBUG: Package Manager: " ++ packageManager ]) with
        | (Return currentKernel, st2) =>
            match getInstalledKernels packageManager
                    (logged st2 [ "DEBUG: Current kernel: " ++ currentKernel ]) with
            | (Return installedKernels, st3) =>
                match signNewKernels (getNewKernels currentKernel installedKernels)
                        privateKeyFile publicKeyFile
                        (logged st3
                           [ "DEBUG: Installed kernels: " ++ repr_list installedKernels;
                             "DEBUG: New kernels: "
                             ++ repr_list (getNewKernels currentKernel installedKernels) ])
                with
                | (Return _, st4) =>
                    (Return tt, logged st4 [ "DEBUG: New kernels should now be signed" ])
                | (SysExit code, st4) => (SysExit code, st4)
                | (Raise e, st4) => (Raise e, st4)
                end
            | (SysExit code, st3) => (SysExit code, st3)
            | (Raise e, st3) => (Raise e, st3)
            end
        | (SysExit code, st2) => (SysExit code, st2)
        | (Raise e, st2) => (Raise e, st2)
        end
    | (SysExit code, st1) => (SysExit code, st1)
    | (Raise e, st1) => (Raise e, st1)
    end.
Proof.
  unfold main.
  repeat (unfold bind at 1; rewrite print_logged; rewrite ?logged_logged).
  match goal with
  | |- context [logged st ?lines] => change lines with banner
  end.
  unfold bind at 1.
  destruct (getPackageManager (logged st banner)) as [[pm|c|e] st1]; [|reflexivity..].
  unfold bind at 1. rewrite print_logged.
  unfold bind at 1.
  destruct (getCurrentKernel _) as [[cur|c|e] st2]; [|reflexivity..].
  unfold bind at 1. rewrite print_logged.
  unfold bind at 1.
  destruct (getInstalledKernels _ _) as [[inst|c|e] st3]; [|reflexivity..].
  unfold bind at 1. rewrite print_logged.
  unfold bind at 1. rewrite print_logged, logged_logged.
  unfold bind at 1.
  match goal with
  | |- context [logged st3 ?lines] =>
      change lines
        with [ "DEBUG: Installed kernels: " ++ repr_list inst;
               "DEBUG: New kernels: " ++ repr_list (getNewKernels cur inst) ]
  end.
  destruct (signNewKernels _ _ _ _) as [[[]|c|e] st4]; [|reflexivity..].
  now rewrite print_logged.
Qed.

Lemma extract_outcome (line : string) (st : state) :
  (exists token, fst (extractKernelVersionString line st) = Return token)
  \/ fst (extractKernelVersionString line st) = SysExit 3.
Proof.
  rewrite extract_scan.
  destruct (scan line) as [[[p m] q]|]; [left; now eexists | now right].
Qed.

Lemma collect_never_raises (lines : list string) :
  forall acc st,
    match fst (for_fold lines acc collect_version st) with
    | Return _ => True
    | SysExit code => code = 3%Z
    | Raise _ => False
    end.
Proof.
  induction lines as [|line lines IH]; intros acc st; [exact I|].
  cbn [for_fold]. unfold bind at 1. unfold collect_version at 1. unfold bind at 1.
  rewrite extract_scan. destruct (scan line) as [[[p m] q]|]; [|reflexivity].
  unfold ret at 1. apply IH.
Qed.

Lemma collect_outcome (lines : list string) (acc : list string) (st : state) :
  (exists tokens, fst (for_fold lines acc collect_version st) = Return tokens)
  \/ fst (for_fold lines acc collect_version st) = SysExit 3.
Proof.
  pose proof (collect_never_raises lines acc st) as H.
  destruct (fst (for_fold lines acc collect_version st)) as [tokens|code|e].
  - left. now exists tokens.
  - right. now subst code.
  - contradiction.
Qed.

Lemma getCurrentKernel_outcome {host : Host} (st : state) :
  (exists token, fst (getCurrentKernel st) = Return token)
  \/ fst (getCurrentKernel st) = SysExit 3
  \/ exists e, fst (getCurrentKernel st) = Raise e /\ process_error e.
Proof.
  rewrite getCurrentKernel_unfolded. unfold process_error.
  destruct (run_process (spawned st) uname_command) as [|status [output|]].
  - right; right. exists OSError. tauto.
  - destruct (status =? 0)%Z.
    + destruct (extract_outcome output (started st [ uname_command ])) as [H|H]; tauto.
    + right; right. exists CalledProcessError. tauto.
  - destruct (status =? 0)%Z; right; right;
      [exists UnicodeDecodeError | exists CalledProcessError]; tauto.
Qed.

Lemma getInstalledKernels_outcome {host : Host} (packageManager : string) (st : state) :
  listing_command packageManager <> None ->
  (exists tokens, fst (getInstalledKernels packageManager st) = Return tokens)
  \/ fst (getInstalledKernels packageManager st) = SysExit 3
  \/ exists e, fst (getInstalledKernels packageManager st) = Raise e /\ process_error e.
Proof.
  intros Hknown.
  destruct (listing_command packageManager) as [cmd|] eqn:Hcmd; [|contradiction].
  destruct (listing_command_nonempty _ _ Hcmd) as (name & args & ->).
  rewrite (getInstalledKernels_output _ _ _ _ Hcmd). unfold process_error.
  destruct (run_process (spawned st) (name :: args)) as [|status [output|]].
  - right; right. exists OSError. tauto.
  - destruct (status =? 0)%Z.
    + destruct (collect_outcome (Str.split_lines (Str.rstrip output)) []
                                (started st [ name :: args ])) as [H|H]; tauto.
    + right; right. exists CalledProcessError. tauto.
  - destruct (status =? 0)%Z; right; right;
      [exists UnicodeDecodeError | exists CalledProcessError]; tauto.
Qed.

Ltac close_outcome :=
  split;
  [ first [ now left
          | right; now left
          | right; right; now left
          | right; right; right; now left
          | right; right; right; right; eexists; split; [reflexivity | assumption] ]
  | simpl; lia ].

(** X19.  As long as [pkg_resources] returns for every version it is given
    (here it does by its interface: [parse_version] and the two comparisons
    are functions; a library that raises on a version string, and the
    ending of [main] in that exception, are outside this statement), [main]
    ends in one of these ways whatever the host answers: it returns, it
    exits with code 1, 2 or 3, or an [OSError], [CalledProcessError] or
    [UnicodeDecodeError] of [uname] or of the listing command goes
    uncaught.  The script's own code never makes it end in [IndexError] or
    [UnboundLocalError]: every exit code it uses is in the table, and the
    package manager it lists with is always one of the three.  Under that
    condition the exit status of the script is 0, 1, 2 or 3. *)
Theorem main_exit_statuses :
  forall (host : Host) (pkg : PkgResources) (privateKeyFile publicKeyFile : string)
         (st : state),
    (fst (main privateKeyFile publicKeyFile st) = Return tt
     \/ fst (main privateKeyFile publicKeyFile st) = SysExit 1
     \/ fst (main privateKeyFile publicKeyFile st) = SysExit 2
     \/ fst (main privateKeyFile publicKeyFile st) = SysExit 3
     \/ exists e, fst (main privateKeyFile publicKeyFile st) = Raise e /\ process_error e)
    /\ (0 <= exit_status (fst (main privateKeyFile publicKeyFile st)) <= 3)%Z.
Proof.
  intros host pkg privateKeyFile publicKeyFile st. rewrite main_unfolded.
  destruct (getPackageManager_cases (logged st banner))
    as [(n & pm & Hnth & ->)| ->]; [|close_outcome].
  assert (Hknown : listing_command pm <> None).
  { destruct (listing_command_known n pm Hnth) as (name & args & ->). discriminate. }
  match goal with
  | |- context [getCurrentKernel ?s] =>
      pose proof (getCurrentKernel_outcome s) as Hcur;
      destruct (getCurrentKernel s) as [o2 st2]
  end.
  simpl in Hcur. destruct Hcur as [[cur ->]|[->|(e & -> & He)]];
    [|close_outcome..].
  match goal with
  | |- context [getInstalledKernels pm ?s] =>
      pose proof (getInstalledKernels_outcome pm s Hknown) as Hinst;
      destruct (getInstalledKernels pm s) as [o3 st3]
  end.
  simpl in Hinst. destruct Hinst as [[inst ->]|[->|(e & -> & He)]];
    [|close_outcome..].
  match goal with
  | |- context [signNewKernels ?ks ?a ?b ?s] =>
      pose proof (signNewKernels_outcome a b ks s) as Hsign;
      destruct (signNewKernels ks a b s) as [o4 st4]
  end.
  simpl in Hsign. destruct Hsign as [->| ->]; close_outcome.
Qed.

(** X20.  When the package manager, the current kernel and the installed
    kernels are found and the signing binary signs every module of every
    newer kernel, [main] returns with exit status 0, and the processes it
    has started after the enumeration are exactly the signing commands of
    the newer kernels: four for each kernel that [getNewKernels] selects,
    in the order of the installed list, and none for any other kernel. *)
Theorem main_signs_new_kernels :
  forall (host : Host) (pkg : PkgResources) (privateKeyFile publicKeyFile : string)
         (st st1 st2 st3 : state) (packageManager currentKernel : string)
         (installedKernels : list string),
    getPackageManager (logged st banner) = (Return packageManager, st1) ->
    getCurrentKernel (logged st1 [ "DEBUG: Package Manager: " ++ packageManager ])
    = (Return currentKernel, st2) ->
    getInstalledKernels packageManager
                        (logged st2 [ "DEBUG: Current kernel: " ++ currentKernel ])
    = (Return installedKernels, st3) ->
    (forall h kernel module,
        In kernel (getNewKernels currentKernel installedKernels) ->
        In module MODULE_NAMES ->
        status_of (run_process h (sign_command kernel privateKeyFile publicKeyFile module))
        = 0%Z) ->
    fst (main privateKeyFile publicKeyFile st) = Return tt
    /\ spawned (snd (main privateKeyFile publicKeyFile st))
       = (spawned st3
          ++ sign_commands privateKeyFile publicKeyFile
                           (getNewKernels currentKernel installedKernels))%list
    /\ exit_status (fst (main privateKeyFile publicKeyFile st)) = 0%Z.
Proof.
  intros host pkg privateKeyFile publicKeyFile st st1 st2 st3
         packageManager currentKernel installedKernels Hpm Hcur Hinst Hsign.
  rewrite main_unfolded, Hpm, Hcur, Hinst.
  rewrite (signNewKernels_all_sign _ _ _ Hsign).
  repeat split.
Qed.

Lemma main_signs_new_kernels_witness :
  fst (main (host := workstation) (pkg := Release.pkg)
            "private.key" "public.der" init_state)
  = Return tt
  /\ spawned (snd (main (host := workstation) (pkg := Release.pkg)
                        "private.key" "public.der" init_state))
     = [ probe "rpm"; uname_command; [ "rpm"; "-qa"; "kernel" ];
         sign_command "5.12.1" "private.key" "public.der" "nvidia-drm.ko";
         sign_command "5.12.1" "private.key" "public.der" "nvidia.ko";
         sign_command "5.12.1" "private.key" "public.der" "nvidia-modeset.ko";
         sign_command "5.12.1" "private.key" "public.der" "nvidia-uvm.ko" ].
Proof.
  pose (st1 := started (logged init_state banner) [ probe "rpm" ]).
  pose (st2 := started (logged st1 [ "DEBUG: Package Manager: rpm" ]) [ uname_command ]).
  pose (st3 := started (logged st2 [ "DEBUG: Current kernel: 5.10.0" ])
                       [ [ "rpm"; "-qa"; "kernel" ] ]).
  assert (H1 : getPackageManager (host := workstation) (logged init_state banner)
               = (Return "rpm", st1)) by (vm_compute; reflexivity).
  assert (H2 : getCurrentKernel (host := workstation)
                 (logged st1 [ "DEBUG: Package Manager: " ++ "rpm" ])
               = (Return "5.10.0", st2)) by (vm_compute; reflexivity).
  assert (H3 : getInstalledKernels (host := workstation) "rpm"
                 (logged st2 [ "DEBUG: Current kernel: " ++ "5.10.0" ])
               = (Return [ "5.10.0"; "5.12.1" ], st3)) by (vm_compute; reflexivity).
  destruct (main_signs_new_kernels
              workstation Release.pkg "private.key" "public.der"
              init_state st1 st2 st3 "rpm" "5.10.0" [ "5.10.0"; "5.12.1" ]
              H1 H2 H3)
    as (Hmain & Hspawned & _).
  { intros h kernel module _ _. reflexivity. }
  split; [exact Hmain|]. rewrite Hspawned. vm_compute. reflexivity.
Defined.

(** X21.  When none of the three probes has status 0, [main] exits with
    code 1 after the banner and the error; the three probes are all it has
    started: [uname], the listing command and the signing binary are never
    run. *)
Theorem main_without_package_manager :
  forall (host : Host) (pkg : PkgResources) (privateKeyFile publicKeyFile : string)
         (st : state),
    status_of (run_process (spawned st) (probe "rpm")) <> 0%Z ->
    status_of (run_process (spawned st ++ [ probe "rpm" ]) (probe "dpkg")) <> 0%Z ->
    status_of (run_process (spawned st ++ [ probe "rpm"; probe "dpkg" ]) (probe "pacman"))
    <> 0%Z ->
    main privateKeyFile publicKeyFile st
    = (SysExit 1,
       mkState (spawned st ++ [ probe "rpm"; probe "dpkg"; probe "pacman" ])
               (printed st ++ banner
                ++ error_lines "Package manager could not be determined" 1
                               "Package manager not found")).
Proof.
  intros host pkg privateKeyFile publicKeyFile st Hrpm Hdpkg Hpacman.
  rewrite main_unfolded, getPackageManager_unfolded.
  apply Z.eqb_neq in Hrpm, Hdpkg, Hpacman.
  change (spawned (logged st banner)) with (spawned st).
  change (firstn 1 probes) with [ probe "rpm" ].
  change (firstn 2 probes) with [ probe "rpm"; probe "dpkg" ].
  rewrite Hrpm, Hdpkg, Hpacman.
  unfold logged, started. simpl. now rewrite <- app_assoc.
Qed.

Lemma main_without_package_manager_witness :
  main (host := bare) (pkg := Release.pkg) "private.key" "public.der" init_state
  = (SysExit 1,
     mkState [ probe "rpm"; probe "dpkg"; probe "pacman" ]
             (banner ++ error_lines "Package manager could not be determined" 1
                                    "Package manager not found")).
Proof.
  apply (main_without_package_manager
           bare Release.pkg "private.key" "public.der" init_state); discriminate.
Defined.

(** X22.  When the package manager is found but the current kernel or the
    installed kernels are not, [main] ends where that stage ended: with its
    exit status and in its state, so that no later command (the listing
    command after a failed [uname], a signing binary after either) is ever
    started. *)
Theorem main_stops_when_enumeration_fails :
  forall (host : Host) (pkg : PkgResources) (privateKeyFile publicKeyFile : string)
         (st st1 : state) (packageManager : string),
    getPackageManager (logged st banner) = (Return packageManager, st1) ->
    (forall o st2,
        getCurrentKernel (logged st1 [ "DEBUG: Package Manager: " ++ packageManager ])
        = (o, st2) ->
        (forall token, o <> Return token) ->
        snd (main privateKeyFile publicKeyFile st) = st2
        /\ exit_status (fst (main privateKeyFile publicKeyFile st)) = exit_status o)
    /\ (forall currentKernel st2 o st3,
           getCurrentKernel (logged st1 [ "DEBUG: Package Manager: " ++ packageManager ])
           = (Return currentKernel, st2) ->
           getInstalledKernels packageManager
                               (logged st2 [ "DEBUG: Current kernel: " ++ currentKernel ])
           = (o, st3) ->
           (forall tokens, o <> Return tokens) ->
           snd (main privateKeyFile publicKeyFile st) = st3
           /\ exit_status (fst (main privateKeyFile publicKeyFile st)) = exit_status o).
Proof.
  intros host pkg privateKeyFile publicKeyFile st st1 packageManager Hpm.
  rewrite main_unfolded, Hpm. split.
  - intros o st2 -> Hfail. destruct o as [token|code|e]; [|now split..].
    now elim (Hfail token).
  - intros currentKernel st2 o st3 -> -> Hfail.
    destruct o as [tokens|code|e]; [|now split..].
    now elim (Hfail tokens).
Qed.

Lemma main_stops_when_enumeration_fails_witness :
  spawned (snd (main (host := empty_arch) (pkg := Release.pkg)
                     "private.key" "public.der" init_state))
  = [ probe "rpm"; probe "dpkg"; probe "pacman"; uname_command ]
  /\ exit_status (fst (main (host := empty_arch) (pkg := Release.pkg)
                            "private.key" "public.der" init_state))
     = 3%Z.
Proof.
  pose (st1 := started (logged init_state banner) probes).
  assert (H1 : getPackageManager (host := empty_arch) (logged init_state banner)
               = (Return "pacman", st1)) by (vm_compute; reflexivity).
  destruct (getCurrentKernel (host := empty_arch)
              (logged st1 [ "DEBUG: Package Manager: " ++ "pacman" ]))
    as [o st2] eqn:H2.
  assert (Ho : o = SysExit 3 /\ spawned st2
                                = [ probe "rpm"; probe "dpkg"; probe "pacman"; uname_command ]).
  { vm_compute in H2. injection H2 as <- <-. split; reflexivity. }
  destruct Ho as [-> Hst2].
  destruct (proj1 (main_stops_when_enumeration_fails
                     empty_arch Release.pkg "private.key" "public.der"
                     init_state st1 "pacman" H1)
                  (SysExit 3) st2 H2)
    as [Hstate Hexit]; [discriminate|].
  split; [now rewrite Hstate | exact Hexit].
Defined.
